(** * Task management tool: deadline consistency between tasks and projects

    A shallow embedding of the FastAPI application in [app/]:

    - [app/schemas.py]  : the pydantic payloads and the [remove_tzinfo]
      validator of [DateTimeValidatorMixin];
    - [app/utils.py]    : [check_deadline_consistency];
    - [app/models.py]   : the SQLAlchemy rows [Project] and [Task];
    - [app/api/v1/projects.py], [app/api/v1/tasks.py] : the request
      handlers, written in a small state-and-exception monad over the
      SQLAlchemy session.

    Definitions come first, the theorems about them follow. *)

From Stdlib Require Import ZArith List String Bool Lia DecimalString.
From Stdlib Require DecimalPos DecimalZ.
Import ListNotations.
Local Open Scope string_scope.
Local Open Scope list_scope.
Local Open Scope Z_scope.

(* ===================================================================== *)
(** ** Timestamps *)
(* ===================================================================== *)

(** A naive [datetime] (no [tzinfo]) is represented by its wall-clock
    reading, counted in microseconds; Python compares two naive values by
    that reading.  The year range 1..9999 of [datetime] is not modelled. *)
Definition timestamp := Z.

(** A [datetime] as it arrives in a payload: the wall-clock reading and,
    when the value is timezone-aware, the UTC offset of its [tzinfo] (in
    microseconds, east of UTC positive). *)
Record datetime : Type := mk_datetime {
  wall : Z;
  tzinfo : option Z
}.

(** [value.astimezone(timezone.utc)] on an aware value: the same instant,
    read on the UTC clock. *)
Definition astimezone_utc (value : datetime) : datetime :=
  match tzinfo value with
  | Some offset => {| wall := wall value - offset; tzinfo := Some 0 |}
  | None => value
  end.

(** [value.replace(tzinfo=None)]. *)
Definition replace_tzinfo_None (value : datetime) : datetime :=
  {| wall := wall value; tzinfo := None |}.

(** The instant (UTC microseconds) a value denotes; a naive value is
    taken to be on the UTC clock already. *)
Definition instant (value : datetime) : Z :=
  match tzinfo value with
  | Some offset => wall value - offset
  | None => wall value
  end.

(* ===================================================================== *)
(** ** [app/schemas.py] *)
(* ===================================================================== *)

Module schemas.

(** [DateTimeValidatorMixin.remove_tzinfo]:
<<
    if value is not None and value.tzinfo is not None:
        value = value.astimezone(timezone.utc).replace(tzinfo=None)
    return value
>> *)
Definition remove_tzinfo (value : option datetime) : option datetime :=
  match value with
  | Some v =>
      match tzinfo v with
      | Some _ => Some (replace_tzinfo_None (astimezone_utc v))
      | None => Some v
      end
  | None => None
  end.

(** The validated [deadline] of a payload, as the handlers read it: the
    validator has run, so the value is naive and is kept as its reading. *)
Definition validated_deadline (value : option datetime) : option timestamp :=
  option_map wall (remove_tzinfo value).

(** [TaskCreate] (= [TaskBase]). *)
Module TaskCreate.
Record t : Type := mk {
  title : string;
  description : option string;
  deadline : option timestamp;
  completed : bool;
  project_id : option Z
}.
End TaskCreate.

(** [TaskUpdate].  Every field is [Optional[...] = None]; pydantic also
    records which fields the payload set.  A field is [None] when the
    payload leaves it out, [Some None] when the payload sets it to null
    and [Some (Some v)] when it sets it to [v]. *)
Module TaskUpdate.
Record t : Type := mk {
  title : option (option string);
  description : option (option string);
  deadline : option (option timestamp);
  completed : option (option bool);
  project_id : option (option Z)
}.
End TaskUpdate.

(** [ProjectCreate] (= [ProjectBase]). *)
Module ProjectCreate.
Record t : Type := mk {
  title : string;
  deadline : timestamp
}.
End ProjectCreate.

(** [ProjectUpdate], with the same three-way fields as [TaskUpdate]. *)
Module ProjectUpdate.
Record t : Type := mk {
  title : option (option string);
  deadline : option (option timestamp)
}.
End ProjectUpdate.

(** Reading an attribute of an update payload ([task_update.deadline]):
    the value the payload set, [None] when it set null or nothing. *)
Definition attr {A : Type} (field : option (option A)) : option A :=
  match field with
  | Some (Some v) => Some v
  | _ => None
  end.

(** One entry of [payload.model_dump(exclude_unset=True)] written onto the
    attribute [current] by [setattr]: fields the payload left out keep
    their value, the others take the payload's, null included. *)
Definition setattr_unset {A : Type} (field : option (option A)) (current : option A)
  : option A :=
  match field with
  | Some v => v
  | None => current
  end.

End schemas.

(* ===================================================================== *)
(** ** Outcomes of a handler *)
(* ===================================================================== *)

(** What a handler can raise: an [HTTPException] of its own, or the
    [IntegrityError] of a commit that breaks a NOT NULL constraint. *)
Inductive exception : Type :=
| HTTPException (status_code : Z) (detail : string)
| IntegrityError.

Inductive result (A : Type) : Type :=
| Ok (a : A)
| Raise (e : exception).
Arguments Ok {A} a.
Arguments Raise {A} e.

Definition HTTP_400_BAD_REQUEST : Z := 400.
Definition HTTP_404_NOT_FOUND : Z := 404.

(** [str(n)] for a Python [int]. *)
Definition str (n : Z) : string := NilZero.string_of_int (Z.to_int n).

(* ===================================================================== *)
(** ** [app/utils.py] *)
(* ===================================================================== *)

Definition generic_message : string :=
  "Task deadline cannot be later than project deadline.".

Definition contextual_message (task_id : Z) : string :=
  ("Task '" ++ str task_id ++ "' has a deadline later than the project deadline.")%string.

(** [check_deadline_consistency(task_deadline, project_deadline, task_id=None)]:
<<
    if task_deadline and project_deadline and task_deadline > project_deadline:
        detail_message = "Task deadline cannot be later than project deadline."
        if task_id:
            detail_message = f"Task '{task_id}' has a deadline later than the project deadline."
        raise HTTPException(status_code=status.HTTP_400_BAD_REQUEST, detail=detail_message)
>>
    A [datetime] is always true, so the first two tests are tests for
    [None]; [if task_id:] is the truth value of an [int | None], false at
    [None] and at [0]. *)
Definition check_deadline_consistency
  (task_deadline project_deadline : option timestamp) (task_id : option Z)
  : result unit :=
  match task_deadline, project_deadline with
  | Some td, Some pd =>
      if td >? pd then
        let detail_message :=
          match task_id with
          | Some i => if i =? 0 then generic_message else contextual_message i
          | None => generic_message
          end in
        Raise (HTTPException HTTP_400_BAD_REQUEST detail_message)
      else Ok tt
  | _, _ => Ok tt
  end.

(* ===================================================================== *)
(** ** [app/models.py] *)
(* ===================================================================== *)

Module models.

(** A [Project] object.  An attribute of a mapped object can hold [None]
    whatever its column says; the NOT NULL constraints are the database's
    and are checked when the session commits. *)
Module Project.
Record t : Type := mk {
  id : Z;
  title : option string;
  deadline : option timestamp
}.
End Project.

(** A [Task] object. *)
Module Task.
Record t : Type := mk {
  id : Z;
  title : option string;
  description : option string;
  deadline : option timestamp;
  completed : option bool;
  project_id : option Z
}.
End Task.

End models.

Import schemas models.

(* ===================================================================== *)
(** ** The session ([app/database.py]) *)
(* ===================================================================== *)

(** The two tables, rows in rowid order. *)
Record DB : Type := mk_DB {
  projects : list Project.t;
  tasks : list Task.t
}.

(** An [AsyncSession] during one request: what the database holds, and the
    session's view of it with the changes not yet committed. *)
Record Session : Type := mk_Session {
  committed : DB;
  working : DB
}.

(** A handler: it threads the session and may raise. *)
Definition M (A : Type) : Type := Session -> result A * Session.

Definition ret {A : Type} (a : A) : M A := fun s => (Ok a, s).

Definition bind {A B : Type} (m : M A) (k : A -> M B) : M B :=
  fun s =>
    match m s with
    | (Ok a, s') => k a s'
    | (Raise e, s') => (Raise e, s')
    end.

Definition raise {A : Type} (e : exception) : M A := fun s => (Raise e, s).

(** The outcome of a call that does not touch the session. *)
Definition lift {A : Type} (r : result A) : M A := fun s => (r, s).

Declare Scope handler_scope.
Delimit Scope handler_scope with handler.
Notation "x <- m ;; k" := (bind m (fun x => k))
  (at level 61, m at next level, right associativity) : handler_scope.
Notation "m ;; k" := (bind m (fun _ => k))
  (at level 61, right associativity) : handler_scope.
Local Open Scope handler_scope.

(** [for x in xs: body(x)]. *)
Fixpoint for_each {A : Type} (xs : list A) (body : A -> M unit) : M unit :=
  match xs with
  | [] => ret tt
  | x :: rest => body x ;; for_each rest body
  end.

(** [if n: body(n)] for an [int | None]: nothing is done at [None] and at
    [0]. *)
Definition when_truthy (n : option Z) (body : Z -> M unit) : M unit :=
  match n with
  | Some k => if k =? 0 then ret tt else body k
  | None => ret tt
  end.

Definition has_id_Project (i : Z) (p : Project.t) : bool := Project.id p =? i.
Definition has_id_Task (i : Z) (t : Task.t) : bool := Task.id t =? i.

(** [await db.get(models.Project, project_id)]. *)
Definition db_get_Project (project_id : Z) : M (option Project.t) :=
  fun s => (Ok (find (has_id_Project project_id) (projects (working s))), s).

(** [await db.get(models.Task, task_id)]. *)
Definition db_get_Task (task_id : Z) : M (option Task.t) :=
  fun s => (Ok (find (has_id_Task task_id) (tasks (working s))), s).

Definition owned_by (project_id : Z) (t : Task.t) : bool :=
  match Task.project_id t with
  | Some i => i =? project_id
  | None => false
  end.

(** [db_project.tasks]: the relationship, loaded with the project
    ([lazy="selectin"]): the tasks whose [project_id] is the project's id. *)
Definition Project_tasks (db_project : Project.t) : M (list Task.t) :=
  fun s => (Ok (filter (owned_by (Project.id db_project)) (tasks (working s))), s).

(** The rowid SQLite gives a new row of an [INTEGER PRIMARY KEY] table:
    1 in an empty table, else one more than the largest in use. *)
Definition next_rowid (ids : list Z) : Z :=
  match ids with
  | [] => 1
  | i :: rest => fold_right Z.max i rest + 1
  end.

(** [db.add(new_project)]: the new row, with the id the flush gives it. *)
Definition db_add_Project (title : option string) (deadline : option timestamp)
  : M Project.t :=
  fun s =>
    let w := working s in
    let new_project :=
      Project.mk (next_rowid (map Project.id (projects w))) title deadline in
    (Ok new_project,
     {| committed := committed s;
        working := {| projects := projects w ++ [new_project]; tasks := tasks w |} |}).

(** [db.add(new_task)]. *)
Definition db_add_Task (title description : option string)
  (deadline : option timestamp) (completed : option bool) (project_id : option Z)
  : M Task.t :=
  fun s =>
    let w := working s in
    let new_task :=
      Task.mk (next_rowid (map Task.id (tasks w)))
              title description deadline completed project_id in
    (Ok new_task,
     {| committed := committed s;
        working := {| projects := projects w; tasks := tasks w ++ [new_task] |} |}).

(** The [setattr]s of a handler on [db_project], an object of the session:
    the session's row of that id now reads as the object does. *)
Definition db_set_Project (db_project : Project.t) : M unit :=
  fun s =>
    let w := working s in
    (Ok tt,
     {| committed := committed s;
        working :=
          {| projects :=
               map (fun p => if has_id_Project (Project.id db_project) p
                             then db_project else p) (projects w);
             tasks := tasks w |} |}).

Definition db_set_Task (db_task : Task.t) : M unit :=
  fun s =>
    let w := working s in
    (Ok tt,
     {| committed := committed s;
        working :=
          {| projects := projects w;
             tasks :=
               map (fun t => if has_id_Task (Task.id db_task) t
                             then db_task else t) (tasks w) |} |}).

Definition unlink (t : Task.t) : Task.t :=
  Task.mk (Task.id t) (Task.title t) (Task.description t) (Task.deadline t)
          (Task.completed t) None.

(** [await db.delete(db_project)].  [Project.tasks] is a plain
    [relationship] (cascade "save-update, merge", no "delete"): the flush
    sets the [project_id] of every task of the collection to NULL and
    deletes the project's row. *)
Definition db_delete_Project (db_project : Project.t) : M unit :=
  fun s =>
    let w := working s in
    let pid := Project.id db_project in
    (Ok tt,
     {| committed := committed s;
        working :=
          {| projects := filter (fun p => negb (has_id_Project pid p)) (projects w);
             tasks := map (fun t => if owned_by pid t then unlink t else t) (tasks w) |} |}).

(** [await db.delete(db_task)]. *)
Definition db_delete_Task (db_task : Task.t) : M unit :=
  fun s =>
    let w := working s in
    (Ok tt,
     {| committed := committed s;
        working :=
          {| projects := projects w;
             tasks := filter (fun t => negb (has_id_Task (Task.id db_task) t)) (tasks w) |} |}).

Definition is_Some {A : Type} (o : option A) : bool :=
  match o with Some _ => true | None => false end.

(** The NOT NULL columns of [models.py]: [Project.title] and
    [Project.deadline] ([nullable=False]); [Task.title] ([nullable=False])
    and [Task.completed] ([Mapped[bool]], not [Optional]). *)
Definition not_null_Project (p : Project.t) : bool :=
  is_Some (Project.title p) && is_Some (Project.deadline p).

Definition not_null_Task (t : Task.t) : bool :=
  is_Some (Task.title t) && is_Some (Task.completed t).

Definition constraints (db : DB) : bool :=
  forallb not_null_Project (projects db) && forallb not_null_Task (tasks db).

(** [await db.commit()].  The engine of [database.py] is SQLite with its
    defaults: NOT NULL is enforced, [ForeignKey("projects.id")] is not
    (no [PRAGMA foreign_keys]).  A commit that fails writes nothing. *)
Definition db_commit : M unit :=
  fun s =>
    if constraints (working s)
    then (Ok tt, {| committed := working s; working := working s |})
    else (Raise IntegrityError, s).

(** [await db.refresh(obj)]: the object re-read from its row. *)
Definition db_refresh_Project (obj : Project.t) : M Project.t :=
  fun s =>
    (Ok match find (has_id_Project (Project.id obj)) (projects (working s)) with
        | Some row => row
        | None => obj
        end, s).

Definition db_refresh_Task (obj : Task.t) : M Task.t :=
  fun s =>
    (Ok match find (has_id_Task (Task.id obj)) (tasks (working s)) with
        | Some row => row
        | None => obj
        end, s).

Definition Project_not_found : exception :=
  HTTPException HTTP_404_NOT_FOUND "Project not found".

Definition Task_not_found : exception :=
  HTTPException HTTP_404_NOT_FOUND "Task not found".

(* ===================================================================== *)
(** ** [app/api/v1/projects.py] *)
(* ===================================================================== *)

(** [get_project]. *)
Definition get_project (project_id : Z) : M Project.t :=
  db_project <- db_get_Project project_id ;;
  match db_project with
  | None => raise Project_not_found
  | Some db_project => ret db_project
  end.

(** [create_project]: a [models.Project] built from the fields of
    [project.model_dump()], added, committed and refreshed. *)
Definition create_project (project : ProjectCreate.t) : M Project.t :=
  new_project <- db_add_Project (Some (ProjectCreate.title project))
                                (Some (ProjectCreate.deadline project)) ;;
  db_commit ;;
  db_refresh_Project new_project.

(** [for field, value in project_update.model_dump(exclude_unset=True).items():
         setattr(db_project, field, value)]. *)
Definition ProjectUpdate_setattrs (project_update : ProjectUpdate.t)
  (db_project : Project.t) : Project.t :=
  Project.mk (Project.id db_project)
    (setattr_unset (ProjectUpdate.title project_update) (Project.title db_project))
    (setattr_unset (ProjectUpdate.deadline project_update) (Project.deadline db_project)).

(** [update_project]:
<<
    db_project = await db.get(models.Project, project_id)
    if not db_project:
        raise HTTPException(status_code=404, detail="Project not found")
    if project_update.deadline:
        for task in db_project.tasks:
            check_deadline_consistency(task.deadline, project_update.deadline, task_id=task.id)
    for field, value in project_update.model_dump(exclude_unset=True).items():
        setattr(db_project, field, value)
    await db.commit()
    await db.refresh(db_project)
>> *)
Definition update_project (project_id : Z) (project_update : ProjectUpdate.t)
  : M Project.t :=
  db_project <- db_get_Project project_id ;;
  match db_project with
  | None => raise Project_not_found
  | Some db_project =>
      (if is_Some (attr (ProjectUpdate.deadline project_update))
       then owned <- Project_tasks db_project ;;
            for_each owned (fun task =>
              lift (check_deadline_consistency
                      (Task.deadline task)
                      (attr (ProjectUpdate.deadline project_update))
                      (Some (Task.id task))))
       else ret tt) ;;
      db_set_Project (ProjectUpdate_setattrs project_update db_project) ;;
      db_commit ;;
      db_refresh_Project db_project
  end.

(** The loop of [update_project] over [db_project.tasks], by name. *)
Definition check_owned_tasks (new_deadline : option timestamp)
  (owned : list Task.t) : M unit :=
  for_each owned (fun task =>
    lift (check_deadline_consistency (Task.deadline task) new_deadline
                                     (Some (Task.id task)))).

(** [delete_project]. *)
Definition delete_project (project_id : Z) : M unit :=
  db_project <- db_get_Project project_id ;;
  match db_project with
  | None => raise Project_not_found
  | Some db_project =>
      db_delete_Project db_project ;;
      db_commit
  end.

(* ===================================================================== *)
(** ** [app/api/v1/tasks.py] *)
(* ===================================================================== *)

(** [get_task]. *)
Definition get_task (task_id : Z) : M Task.t :=
  db_task <- db_get_Task task_id ;;
  match db_task with
  | None => raise Task_not_found
  | Some db_task => ret db_task
  end.

(** [create_task]:
<<
    if task_create.project_id:
        project = await db.get(models.Project, task_create.project_id)
        if project is None:
            raise HTTPException(status_code=404, detail="Project not found")
        check_deadline_consistency(task_create.deadline, project.deadline)
    new_task = models.Task( **task_create.model_dump() )
    db.add(new_task)
    await db.commit()
    await db.refresh(new_task)
>> *)
Definition create_task (task_create : TaskCreate.t) : M Task.t :=
  when_truthy (TaskCreate.project_id task_create) (fun project_id =>
    project <- db_get_Project project_id ;;
    match project with
    | None => raise Project_not_found
    | Some project =>
        lift (check_deadline_consistency (TaskCreate.deadline task_create)
                                         (Project.deadline project) None)
    end) ;;
  new_task <- db_add_Task (Some (TaskCreate.title task_create))
                          (TaskCreate.description task_create)
                          (TaskCreate.deadline task_create)
                          (Some (TaskCreate.completed task_create))
                          (TaskCreate.project_id task_create) ;;
  db_commit ;;
  db_refresh_Task new_task.

(** [task_update.project_id if task_update.project_id is not None
     else db_task.project_id]. *)
Definition new_task_project_id (task_update : TaskUpdate.t) (db_task : Task.t)
  : option Z :=
  match attr (TaskUpdate.project_id task_update) with
  | Some project_id => Some project_id
  | None => Task.project_id db_task
  end.

(** [task_update.deadline if task_update.deadline is not None
     else db_task.deadline]. *)
Definition new_task_deadline (task_update : TaskUpdate.t) (db_task : Task.t)
  : option timestamp :=
  match attr (TaskUpdate.deadline task_update) with
  | Some deadline => Some deadline
  | None => Task.deadline db_task
  end.

(** [for field, value in task_update.model_dump(exclude_unset=True).items():
         setattr(db_task, field, value)]. *)
Definition TaskUpdate_setattrs (task_update : TaskUpdate.t) (db_task : Task.t)
  : Task.t :=
  Task.mk (Task.id db_task)
    (setattr_unset (TaskUpdate.title task_update) (Task.title db_task))
    (setattr_unset (TaskUpdate.description task_update) (Task.description db_task))
    (setattr_unset (TaskUpdate.deadline task_update) (Task.deadline db_task))
    (setattr_unset (TaskUpdate.completed task_update) (Task.completed db_task))
    (setattr_unset (TaskUpdate.project_id task_update) (Task.project_id db_task)).

(** [update_task]:
<<
    db_task = await db.get(models.Task, task_id)
    if not db_task:
        raise HTTPException(status_code=404, detail="Task not found")
    new_task_project_id = (task_update.project_id
        if task_update.project_id is not None else db_task.project_id)
    new_task_deadline = (task_update.deadline
        if task_update.deadline is not None else db_task.deadline)
    if new_task_project_id:
        project = await db.get(models.Project, new_task_project_id)
        if not project:
            raise HTTPException(status_code=404, detail="Project not found")
        check_deadline_consistency(new_task_deadline, project.deadline)
    for field, value in task_update.model_dump(exclude_unset=True).items():
        setattr(db_task, field, value)
    await db.commit()
    await db.refresh(db_task)
>> *)
Definition update_task (task_id : Z) (task_update : TaskUpdate.t) : M Task.t :=
  db_task <- db_get_Task task_id ;;
  match db_task with
  | None => raise Task_not_found
  | Some db_task =>
      when_truthy (new_task_project_id task_update db_task) (fun project_id =>
        project <- db_get_Project project_id ;;
        match project with
        | None => raise Project_not_found
        | Some project =>
            lift (check_deadline_consistency
                    (new_task_deadline task_update db_task)
                    (Project.deadline project) None)
        end) ;;
      db_set_Task (TaskUpdate_setattrs task_update db_task) ;;
      db_commit ;;
      db_refresh_Task db_task
  end.

(** [delete_task]. *)
Definition delete_task (task_id : Z) : M unit :=
  db_task <- db_get_Task task_id ;;
  match db_task with
  | None => raise Task_not_found
  | Some db_task =>
      db_delete_Task db_task ;;
      db_commit
  end.

(** [db_task.project_id = project_id]. *)
Definition set_project_id (db_task : Task.t) (project_id : Z) : Task.t :=
  Task.mk (Task.id db_task) (Task.title db_task) (Task.description db_task)
          (Task.deadline db_task) (Task.completed db_task) (Some project_id).

(** [link_task_to_project]:
<<
    db_task = await db.get(models.Task, task_id)
    if not db_task:
        raise HTTPException(status_code=404, detail="Task not found")
    db_project = await db.get(models.Project, project_id)
    if not db_project:
        raise HTTPException(status_code=404, detail="Project not found")
    check_deadline_consistency(db_task.deadline, db_project.deadline)
    db_task.project_id = project_id
    await db.commit()
    await db.refresh(db_task)
>> *)
Definition link_task_to_project (task_id project_id : Z) : M Task.t :=
  db_task <- db_get_Task task_id ;;
  match db_task with
  | None => raise Task_not_found
  | Some db_task =>
      db_project <- db_get_Project project_id ;;
      match db_project with
      | None => raise Project_not_found
      | Some db_project =>
          lift (check_deadline_consistency (Task.deadline db_task)
                                           (Project.deadline db_project) None) ;;
          db_set_Task (set_project_id db_task project_id) ;;
          db_commit ;;
          db_refresh_Task db_task
      end
  end.

(* ===================================================================== *)
(** ** Requests *)
(* ===================================================================== *)

(** A request opens a session on the database ([get_db]), runs its
    handler, and leaves the database as the session's commits made it;
    changes that were not committed go with the session. *)
Definition open_session (db : DB) : Session := {| committed := db; working := db |}.

Definition request {A : Type} (handler : M A) (db : DB) : result A * DB :=
  let (r, s) := handler (open_session db) in (r, committed s).

(** The mutating requests of the API. *)
Inductive Request : Type :=
| POST_projects (project : ProjectCreate.t)
| PUT_projects (project_id : Z) (project_update : ProjectUpdate.t)
| DELETE_projects (project_id : Z)
| POST_tasks (task_create : TaskCreate.t)
| PUT_tasks (task_id : Z) (task_update : TaskUpdate.t)
| DELETE_tasks (task_id : Z)
| POST_tasks_link_project (task_id project_id : Z).

(** The database after a request. *)
Definition step (db : DB) (r : Request) : DB :=
  match r with
  | POST_projects project => snd (request (create_project project) db)
  | PUT_projects project_id project_update =>
      snd (request (update_project project_id project_update) db)
  | DELETE_projects project_id => snd (request (delete_project project_id) db)
  | POST_tasks task_create => snd (request (create_task task_create) db)
  | PUT_tasks task_id task_update =>
      snd (request (update_task task_id task_update) db)
  | DELETE_tasks task_id => snd (request (delete_task task_id) db)
  | POST_tasks_link_project task_id project_id =>
      snd (request (link_task_to_project task_id project_id) db)
  end.

Definition empty_DB : DB := {| projects := []; tasks := [] |}.

(** The database after a sequence of requests, from the empty one. *)
Definition run (rs : list Request) : DB := fold_left step rs empty_DB.

Definition reachable (db : DB) : Prop := exists rs, db = run rs.

(** Deadline consistency of a database: a task with a deadline that names
    a project of the database is due no later than that project. *)
Definition deadline_consistent (db : DB) : Prop :=
  forall task project d,
    In task (tasks db) ->
    Task.project_id task = Some (Project.id project) ->
    find (has_id_Project (Project.id project)) (projects db) = Some project ->
    Task.deadline task = Some d ->
    exists pd, Project.deadline project = Some pd /\ d <= pd.

(** What every database the API can produce satisfies: ids from 1 up,
    one project row per id, the NOT NULL columns filled, a [project_id]
    that is null, 0 or the id of a project of the database, and deadline
    consistency. *)
Record well_formed (db : DB) : Prop := mk_well_formed {
  wf_project_ids : forall p, In p (projects db) -> 1 <= Project.id p;
  wf_task_ids : forall t, In t (tasks db) -> 1 <= Task.id t;
  wf_project_unique : NoDup (map Project.id (projects db));
  wf_not_null : constraints db = true;
  wf_refs : forall t i,
      In t (tasks db) -> Task.project_id t = Some i ->
      i = 0 \/ In i (map Project.id (projects db));
  wf_deadlines : forall t p d,
      In t (tasks db) -> In p (projects db) ->
      Task.project_id t = Some (Project.id p) ->
      Task.deadline t = Some d ->
      exists pd, Project.deadline p = Some pd /\ d <= pd
}.


(** ** Scenarios *)

(** A project due at 10 and a task of it due at 8 (the scenario of
    [test_update_project_with_invalid_deadline]). *)
Definition project_with_task : list Request :=
  [ POST_projects (ProjectCreate.mk "Launch" 10);
    POST_tasks (TaskCreate.mk "Draft" None (Some 8) false (Some 1)) ].

(** A task due at 7 without project, and a project due at 5 (the scenario
    of [test_link_task_to_project_with_invalid_deadline]). *)
Definition task_then_project : list Request :=
  [ POST_tasks (TaskCreate.mk "Draft" None (Some 7) false None);
    POST_projects (ProjectCreate.mk "Launch" 5) ].

(** A task created with [project_id] 0, then a project, a task of it, and
    the project deleted. *)
Definition zero_then_delete : list Request :=
  [ POST_tasks (TaskCreate.mk "Stray" None None false (Some 0));
    POST_projects (ProjectCreate.mk "Launch" 10);
    POST_tasks (TaskCreate.mk "Draft" None (Some 8) false (Some 1));
    DELETE_projects 1 ].

(** Unfolds the session primitives and the monad, to run a handler on a
    session step by step. *)
Ltac run_handler :=
  unfold request, open_session, when_truthy, bind, ret, raise, lift,
    db_get_Project, db_get_Task, Project_tasks, db_add_Project, db_add_Task,
    db_set_Project, db_set_Task, db_delete_Project, db_delete_Task, db_commit,
    db_refresh_Project, db_refresh_Task; simpl.

(** A task created with [project_id] 0, then a project. *)
Definition zero_then_project : list Request :=
  [ POST_tasks (TaskCreate.mk "Stray" None None false (Some 0));
    POST_projects (ProjectCreate.mk "Launch" 10) ].

(* ===================================================================== *)
(** ** The read endpoints *)
(* ===================================================================== *)

(** [query.offset(skip).limit(limit)] as SQLite evaluates it on rows in
    rowid order: a negative OFFSET counts as 0 and a negative LIMIT is no
    limit. *)
Definition offset_limit {A : Type} (skip limit : Z) (rows : list A) : list A :=
  let rest := skipn (Z.to_nat skip) rows in
  if limit <? 0 then rest else firstn (Z.to_nat limit) rest.


(** [get_project_tasks]:
<<
    db_project = await db.get(models.Project, project_id)
    if not db_project:
        raise HTTPException(status_code=404, detail="Project not found")
    query = select(models.Task).where(models.Task.project_id == project_id)
                               .offset(skip).limit(limit)
>> *)
Definition get_project_tasks (project_id skip limit : Z) : M (list Task.t) :=
  db_project <- db_get_Project project_id ;;
  match db_project with
  | None => raise Project_not_found
  | Some _ =>
      fun s => (Ok (offset_limit skip limit
                      (filter (owned_by project_id) (tasks (working s)))), s)
  end.




(** What a request raises, if it raises. *)
Definition raised {A : Type} (r : result A) : option exception :=
  match r with
  | Ok _ => None
  | Raise e => Some e
  end.

Definition failure (db : DB) (r : Request) : option exception :=
  match r with
  | POST_projects project => raised (fst (request (create_project project) db))
  | PUT_projects project_id project_update =>
      raised (fst (request (update_project project_id project_update) db))
  | DELETE_projects project_id => raised (fst (request (delete_project project_id) db))
  | POST_tasks task_create => raised (fst (request (create_task task_create) db))
  | PUT_tasks task_id task_update =>
      raised (fst (request (update_task task_id task_update) db))
  | DELETE_tasks task_id => raised (fst (request (delete_task task_id) db))
  | POST_tasks_link_project task_id project_id =>
      raised (fst (request (link_task_to_project task_id project_id) db))
  end.

(** The primary key of [tasks]: one row per id. *)
Definition unique_task_ids (db : DB) : Prop := NoDup (map Task.id (tasks db)).

(** The payloads that set no field. *)
Definition empty_TaskUpdate : TaskUpdate.t := TaskUpdate.mk None None None None None.
Definition empty_ProjectUpdate : ProjectUpdate.t := ProjectUpdate.mk None None.

(* ===================================================================== *)
(** * Theorems *)
(* ===================================================================== *)

(** ** The temporal normalizer *)



Lemma remove_tzinfo_naive (value : option datetime) (v : datetime) :
  remove_tzinfo value = Some v -> tzinfo v = None.
Proof.
  destruct value as [u|]; simpl; [|discriminate].
  destruct (tzinfo u) eqn:E; intros [= <-]; [reflexivity | exact E].
Qed.


(** The deadline a handler reads from a payload denotes the instant the
    payload gave. *)
Lemma validated_deadline_instant (v : datetime) :
  validated_deadline (Some v) = Some (instant v).
Proof.
  unfold validated_deadline, instant. simpl.
  destruct (tzinfo v) eqn:E; simpl; [|reflexivity].
  unfold astimezone_utc. now rewrite E.
Qed.

(** ** The deadline consistency checker *)

Lemma check_passes_iff (td pd : option timestamp) (ctx : option Z) :
  check_deadline_consistency td pd ctx = Ok tt <->
  (forall a b, td = Some a -> pd = Some b -> a <= b).
Proof.
  unfold check_deadline_consistency.
  destruct td as [a|], pd as [b|]; try (split; [intros _ ? ? ? ?; discriminate | reflexivity]).
  destruct (Z.gtb_spec a b) as [Hgt|Hle].
  - split; [discriminate|]. intros H. specialize (H a b eq_refl eq_refl). lia.
  - split; [|reflexivity]. intros _ ? ? [= <-] [= <-]. exact Hle.
Qed.

Lemma check_raises_400 (td pd : option timestamp) (ctx : option Z) (e : exception) :
  check_deadline_consistency td pd ctx = Raise e ->
  exists detail, e = HTTPException HTTP_400_BAD_REQUEST detail.
Proof.
  unfold check_deadline_consistency.
  destruct td, pd; try discriminate.
  destruct (_ >? _); [|discriminate].
  intros [= <-]. eauto.
Qed.

(** C2.  The checker rejects exactly when both deadlines are present and
    the task's is strictly later; equal deadlines pass, and so does any
    pair with an absent deadline, whatever the context. *)
Theorem check_deadline_consistency_rejects_iff :
  forall (task_deadline project_deadline : option timestamp) (task_id : option Z),
    ((exists e, check_deadline_consistency task_deadline project_deadline task_id = Raise e)
     <-> (exists td pd, task_deadline = Some td /\ project_deadline = Some pd /\ td > pd)) /\
    ((forall e, check_deadline_consistency task_deadline project_deadline task_id <> Raise e)
     <-> check_deadline_consistency task_deadline project_deadline task_id = Ok tt) /\
    (task_deadline = project_deadline ->
       check_deadline_consistency task_deadline project_deadline task_id = Ok tt) /\
    (task_deadline = None \/ project_deadline = None ->
       check_deadline_consistency task_deadline project_deadline task_id = Ok tt).
Proof.
  intros td pd ctx. unfold check_deadline_consistency.
  destruct td as [a|], pd as [b|];
    try (repeat split; try reflexivity; try discriminate;
         try (intros (? & ? & ? & ? & ?); discriminate);
         intros (? & ?); discriminate).
  destruct (Z.gtb_spec a b) as [Hgt|Hle].
  - repeat split.
    + intros _. exists a, b. repeat split; lia.
    + intros _. eauto.
    + intros H. exfalso. eapply H. reflexivity.
    + discriminate.
    + intros [= ->]. lia.
    + intros [|]; discriminate.
  - repeat split; try reflexivity; try discriminate.
    + intros (? & ?); discriminate.
    + intros (? & ? & [= <-] & [= <-] & ?). lia.
Qed.

Lemma contextual_is_not_generic (task_id : Z) :
  contextual_message task_id <> generic_message.
Proof. unfold contextual_message, generic_message. simpl. discriminate. Qed.



(** ** The session primitives *)

Lemma find_has_id_Project (i : Z) (ps : list Project.t) (p : Project.t) :
  find (has_id_Project i) ps = Some p -> In p ps /\ Project.id p = i.
Proof.
  intros H. apply find_some in H. destruct H as [Hin Hid].
  split; [exact Hin|]. now apply Z.eqb_eq.
Qed.

Lemma find_has_id_Task (i : Z) (ts : list Task.t) (t : Task.t) :
  find (has_id_Task i) ts = Some t -> In t ts /\ Task.id t = i.
Proof.
  intros H. apply find_some in H. destruct H as [Hin Hid].
  split; [exact Hin|]. now apply Z.eqb_eq.
Qed.

Lemma owned_by_iff (i : Z) (t : Task.t) :
  owned_by i t = true <-> Task.project_id t = Some i.
Proof.
  unfold owned_by. destruct (Task.project_id t) as [j|].
  - rewrite Z.eqb_eq. split; [now intros -> | now intros [= ->]].
  - split; discriminate.
Qed.

Lemma fold_max_ge (i : Z) (ids : list Z) :
  i <= fold_right Z.max i ids /\ forall j, In j ids -> j <= fold_right Z.max i ids.
Proof.
  induction ids as [|k ids [IH1 IH2]]; simpl.
  - split; [lia | contradiction].
  - split; [lia|]. intros j [<-|Hj]; [lia|]. specialize (IH2 j Hj). lia.
Qed.

(** The id of a new row is larger than every id in use. *)
Lemma next_rowid_fresh (ids : list Z) (i : Z) : In i ids -> i < next_rowid ids.
Proof.
  destruct ids as [|k ids]; [contradiction|].
  unfold next_rowid. destruct (fold_max_ge k ids) as [H1 H2].
  intros [<-|Hi]; [lia|]. specialize (H2 i Hi). lia.
Qed.

Lemma next_rowid_pos (ids : list Z) :
  (forall i, In i ids -> 1 <= i) -> 1 <= next_rowid ids.
Proof.
  destruct ids as [|k ids]; intros H; [simpl; lia|].
  pose proof (next_rowid_fresh (k :: ids) k (or_introl eq_refl)).
  specialize (H k (or_introl eq_refl)). lia.
Qed.

(** The loop over the owned tasks leaves the session as it is; it passes
    when every task passes and otherwise raises what the first task that
    fails raises. *)
Lemma check_owned_tasks_cases (new_deadline : option timestamp)
  (owned : list Task.t) (s : Session) :
  (check_owned_tasks new_deadline owned s = (Ok tt, s) /\
   forall task, In task owned ->
     check_deadline_consistency (Task.deadline task) new_deadline (Some (Task.id task))
     = Ok tt) \/
  (exists before task after e,
     owned = before ++ task :: after /\
     (forall t, In t before ->
        check_deadline_consistency (Task.deadline t) new_deadline (Some (Task.id t))
        = Ok tt) /\
     check_deadline_consistency (Task.deadline task) new_deadline (Some (Task.id task))
     = Raise e /\
     check_owned_tasks new_deadline owned s = (Raise e, s)).
Proof.
  induction owned as [|task owned IH].
  - left. split; [reflexivity | contradiction].
  - unfold check_owned_tasks in *. simpl. unfold bind, lift at 1.
    destruct (check_deadline_consistency (Task.deadline task) new_deadline
                (Some (Task.id task))) as [[]|e] eqn:E.
    + destruct IH as [[IH1 IH2]|(before & t & after & e & -> & Hb & Ht & IH)].
      * left. split; [exact IH1|]. intros t [<-|Hin]; auto.
      * right. exists (task :: before), t, after, e. repeat split; auto.
        intros u [<-|Hin]; auto.
    + right. exists [], task, owned, e. repeat split; auto. contradiction.
Qed.

Lemma find_unique_Project (ps : list Project.t) (p : Project.t) :
  NoDup (map Project.id ps) -> In p ps ->
  find (has_id_Project (Project.id p)) ps = Some p.
Proof.
  induction ps as [|q ps IH]; simpl; [contradiction|].
  intros Hnd Hin. inversion Hnd as [|? ? Hq Hnd']; subst.
  unfold has_id_Project at 1. destruct (Z.eqb_spec (Project.id q) (Project.id p)) as [E|E].
  - destruct Hin as [->|Hin]; [reflexivity|].
    exfalso. apply Hq. rewrite E. now apply in_map.
  - destruct Hin as [->|Hin]; [contradiction|]. now apply IH.
Qed.

Lemma NoDup_map_filter {A B : Type} (f : A -> B) (g : A -> bool) (l : list A) :
  NoDup (map f l) -> NoDup (map f (filter g l)).
Proof.
  induction l as [|a l IH]; simpl; [auto|].
  intros Hnd. inversion Hnd as [|? ? Ha Hnd']; subst.
  destruct (g a); simpl; [|auto].
  constructor; [|auto]. intros Hin. apply Ha.
  apply in_map_iff in Hin. destruct Hin as (x & Hx & Hin).
  apply filter_In in Hin. rewrite <- Hx. apply in_map. tauto.
Qed.

Lemma In_replace {A : Type} (test : A -> bool) (new : A) (l : list A) (x : A) :
  In x (map (fun y => if test y then new else y) l) ->
  x = new \/ (In x l /\ test x = false).
Proof.
  intros H. apply in_map_iff in H. destruct H as (y & Hy & Hin).
  destruct (test y) eqn:E; [left; now subst | right; subst; auto].
Qed.

Lemma map_id_replace_Project (i : Z) (new : Project.t) (ps : list Project.t) :
  Project.id new = i ->
  map Project.id (map (fun p => if has_id_Project i p then new else p) ps)
  = map Project.id ps.
Proof.
  intros Hi. rewrite map_map. apply map_ext. intros p. unfold has_id_Project.
  destruct (Z.eqb_spec (Project.id p) i); congruence.
Qed.

Lemma constraints_iff (db : DB) :
  constraints db = true <->
  (forall p, In p (projects db) -> not_null_Project p = true) /\
  (forall t, In t (tasks db) -> not_null_Task t = true).
Proof.
  unfold constraints. rewrite andb_true_iff, !forallb_forall. tauto.
Qed.

(** *** Each write keeps a well-formed database well-formed *)

Lemma well_formed_empty : well_formed empty_DB.
Proof.
  constructor; simpl; try contradiction; try reflexivity. constructor.
Qed.

Lemma well_formed_add_Project (db : DB) (title : string) (deadline : timestamp) :
  well_formed db ->
  well_formed
    {| projects := projects db ++
         [Project.mk (next_rowid (map Project.id (projects db)))
                     (Some title) (Some deadline)];
       tasks := tasks db |}.
Proof.
  intros [Hp Ht Hu Hn Hr Hd].
  assert (Hfresh : ~ In (next_rowid (map Project.id (projects db)))
                        (map Project.id (projects db))).
  { intros Hin. apply next_rowid_fresh in Hin. lia. }
  assert (Hpos : 1 <= next_rowid (map Project.id (projects db))).
  { apply next_rowid_pos. intros i Hi. apply in_map_iff in Hi.
    destruct Hi as (p & <- & Hin). auto. }
  apply constraints_iff in Hn. destruct Hn as [Hn1 Hn2].
  constructor; simpl.
  - intros p Hin. apply in_app_or in Hin. destruct Hin as [Hin|[<-|[]]]; auto.
  - exact Ht.
  - rewrite map_app. simpl. apply NoDup_app; auto.
    + repeat constructor. simpl. tauto.
    + intros i Hi [<-|[]]. contradiction.
  - apply constraints_iff. simpl. split; [|exact Hn2].
    intros p Hin. apply in_app_or in Hin. destruct Hin as [Hin|[<-|[]]]; auto.
  - intros t i Hin Hi. destruct (Hr t i Hin Hi); [now left | right].
    rewrite map_app. apply in_or_app. now left.
  - intros t p d Hin Hpin Hpid Hdl. apply in_app_or in Hpin.
    destruct Hpin as [Hpin|[<-|[]]]; [eauto|]. simpl in Hpid.
    destruct (Hr t _ Hin Hpid) as [E|E]; [lia | contradiction].
Qed.

Lemma well_formed_set_Project (db : DB) (project_update : ProjectUpdate.t)
  (db_project : Project.t) :
  well_formed db ->
  In db_project (projects db) ->
  (forall new_deadline task,
      attr (ProjectUpdate.deadline project_update) = Some new_deadline ->
      In task (tasks db) ->
      Task.project_id task = Some (Project.id db_project) ->
      check_deadline_consistency (Task.deadline task) (Some new_deadline)
                                 (Some (Task.id task)) = Ok tt) ->
  let new_project := ProjectUpdate_setattrs project_update db_project in
  let db' :=
    {| projects :=
         map (fun p => if has_id_Project (Project.id new_project) p
                       then new_project else p) (projects db);
       tasks := tasks db |} in
  constraints db' = true ->
  well_formed db'.
Proof.
  intros [Hp Ht Hu Hn Hr Hd] Hin Hchecks new_project db' Hn'.
  assert (Hnew : In new_project (projects db')).
  { unfold db'. simpl. apply in_map_iff. exists db_project. split; [|exact Hin].
    unfold has_id_Project. simpl. now rewrite Z.eqb_refl. }
  constructor; unfold db' in *; simpl in *.
  - intros p Hpin. apply In_replace in Hpin. destruct Hpin as [->|[Hpin _]]; auto.
    simpl. auto.
  - exact Ht.
  - now rewrite map_id_replace_Project.
  - exact Hn'.
  - intros t i Htin Hi. rewrite map_id_replace_Project; eauto.
  - intros t p d Htin Hpin Hpid Hdl. apply In_replace in Hpin.
    destruct Hpin as [->|[Hpin _]]; [|eauto].
    simpl in Hpid.
    apply constraints_iff in Hn'. destruct Hn' as [Hn' _].
    specialize (Hn' _ Hnew). unfold not_null_Project in Hn'.
    apply andb_true_iff in Hn'. destruct Hn' as [_ Hn'].
    unfold new_project in *. simpl in *.
    destruct (ProjectUpdate.deadline project_update) as [[nd|]|] eqn:E; simpl in *.
    + exists nd. split; [reflexivity|].
      specialize (Hchecks nd t eq_refl Htin Hpid).
      exact (proj1 (check_passes_iff _ _ _) Hchecks d nd Hdl eq_refl).
    + discriminate.
    + eauto.
Qed.

Lemma well_formed_delete_Project (db : DB) (project_id : Z) :
  well_formed db ->
  well_formed
    {| projects := filter (fun p => negb (has_id_Project project_id p)) (projects db);
       tasks := map (fun t => if owned_by project_id t then unlink t else t) (tasks db) |}.
Proof.
  intros [Hp Ht Hu Hn Hr Hd].
  apply constraints_iff in Hn. destruct Hn as [Hn1 Hn2].
  assert (Htask : forall t',
    In t' (map (fun t => if owned_by project_id t then unlink t else t) (tasks db)) ->
    exists t, In t (tasks db) /\ Task.id t' = Task.id t /\
              not_null_Task t' = not_null_Task t /\
              Task.deadline t' = Task.deadline t /\
              forall i, Task.project_id t' = Some i ->
                        Task.project_id t = Some i /\ i <> project_id).
  { intros t' Hin. apply in_map_iff in Hin. destruct Hin as (t & <- & Hin).
    exists t. destruct (owned_by project_id t) eqn:E; simpl.
    - repeat split; auto; discriminate.
    - repeat split; auto. intros ->. apply owned_by_iff in H. congruence. }
  constructor; simpl.
  - intros p Hin. apply filter_In in Hin. apply Hp, Hin.
  - intros t' Hin. destruct (Htask t' Hin) as (t & Htin & -> & _). auto.
  - now apply NoDup_map_filter.
  - apply constraints_iff. simpl. split.
    + intros p Hin. apply filter_In in Hin. apply Hn1, Hin.
    + intros t' Hin. destruct (Htask t' Hin) as (t & Htin & _ & -> & _). auto.
  - intros t' i Hin Hi. destruct (Htask t' Hin) as (t & Htin & _ & _ & _ & Href).
    destruct (Href i Hi) as [Hti Hne].
    destruct (Hr t i Htin Hti) as [E|E]; [now left | right].
    apply in_map_iff in E. destruct E as (p & <- & Hpin).
    apply in_map. apply filter_In. split; [exact Hpin|].
    unfold has_id_Project. apply negb_true_iff. now apply Z.eqb_neq.
  - intros t' p d Hin Hpin Hpid Hdl.
    destruct (Htask t' Hin) as (t & Htin & _ & _ & Hdl' & Href).
    destruct (Href _ Hpid) as [Hti _]. apply filter_In in Hpin.
    rewrite Hdl' in Hdl. eapply Hd; eauto. tauto.
Qed.

Lemma well_formed_delete_Task (db : DB) (task_id : Z) :
  well_formed db ->
  well_formed
    {| projects := projects db;
       tasks := filter (fun t => negb (has_id_Task task_id t)) (tasks db) |}.
Proof.
  intros [Hp Ht Hu Hn Hr Hd].
  apply constraints_iff in Hn. destruct Hn as [Hn1 Hn2].
  constructor; simpl; auto.
  - intros t Hin. apply filter_In in Hin. apply Ht, Hin.
  - apply constraints_iff. simpl. split; [exact Hn1|].
    intros t Hin. apply filter_In in Hin. apply Hn2, Hin.
  - intros t i Hin. apply filter_In in Hin. apply Hr, Hin.
  - intros t p d Hin. apply filter_In in Hin. apply Hd, Hin.
Qed.

(** A task row whose NOT NULL columns are filled and whose [project_id],
    when it is neither null nor 0, names a project the row's deadline was
    checked against, can be added or can replace a row. *)
Lemma task_row_consistent (db : DB) (row : Task.t) :
  well_formed db ->
  (forall i, Task.project_id row = Some i ->
     i = 0 \/ exists project,
       find (has_id_Project i) (projects db) = Some project /\
       check_deadline_consistency (Task.deadline row) (Project.deadline project) None
       = Ok tt) ->
  (forall i, Task.project_id row = Some i ->
     i = 0 \/ In i (map Project.id (projects db))) /\
  (forall p d, In p (projects db) ->
     Task.project_id row = Some (Project.id p) -> Task.deadline row = Some d ->
     exists pd, Project.deadline p = Some pd /\ d <= pd).
Proof.
  intros [Hp Ht Hu Hn Hr Hd] Hrow. split.
  - intros i Hi. destruct (Hrow i Hi) as [E|(project & Hf & _)]; [now left | right].
    apply find_has_id_Project in Hf. destruct Hf as [Hin <-]. now apply in_map.
  - intros p d Hin Hpid Hdl.
    destruct (Hrow _ Hpid) as [E|(project & Hf & Hc)].
    + specialize (Hp p Hin). lia.
    + rewrite (find_unique_Project _ _ Hu Hin) in Hf. injection Hf as <-.
      apply constraints_iff in Hn. destruct Hn as [Hn _].
      specialize (Hn p Hin). unfold not_null_Project in Hn.
      apply andb_true_iff in Hn. destruct Hn as [_ Hn].
      destruct (Project.deadline p) as [pd|]; [|discriminate].
      exists pd. split; [reflexivity|].
      exact (proj1 (check_passes_iff _ _ _) Hc d pd Hdl eq_refl).
Qed.

Lemma well_formed_add_Task (db : DB) (row : Task.t) :
  well_formed db ->
  Task.id row = next_rowid (map Task.id (tasks db)) ->
  not_null_Task row = true ->
  (forall i, Task.project_id row = Some i ->
     i = 0 \/ exists project,
       find (has_id_Project i) (projects db) = Some project /\
       check_deadline_consistency (Task.deadline row) (Project.deadline project) None
       = Ok tt) ->
  well_formed {| projects := projects db; tasks := tasks db ++ [row] |}.
Proof.
  intros Hwf Hid Hnn Hrow.
  destruct (task_row_consistent db row Hwf Hrow) as [Hrefs Hdls].
  destruct Hwf as [Hp Ht Hu Hn Hr Hd].
  apply constraints_iff in Hn. destruct Hn as [Hn1 Hn2].
  constructor; simpl; auto.
  - intros t Hin. apply in_app_or in Hin. destruct Hin as [Hin|[<-|[]]]; auto.
    rewrite Hid. apply next_rowid_pos. intros i Hi. apply in_map_iff in Hi.
    destruct Hi as (t & <- & Hin). auto.
  - apply constraints_iff. simpl. split; [exact Hn1|].
    intros t Hin. apply in_app_or in Hin. destruct Hin as [Hin|[<-|[]]]; auto.
  - intros t i Hin. apply in_app_or in Hin. destruct Hin as [Hin|[<-|[]]]; eauto.
  - intros t p d Hin. apply in_app_or in Hin. destruct Hin as [Hin|[<-|[]]]; eauto.
Qed.

Lemma well_formed_set_Task (db : DB) (db_task row : Task.t) :
  well_formed db ->
  In db_task (tasks db) ->
  Task.id row = Task.id db_task ->
  (forall i, Task.project_id row = Some i ->
     i = 0 \/ exists project,
       find (has_id_Project i) (projects db) = Some project /\
       check_deadline_consistency (Task.deadline row) (Project.deadline project) None
       = Ok tt) ->
  let db' :=
    {| projects := projects db;
       tasks := map (fun t => if has_id_Task (Task.id db_task) t then row else t)
                    (tasks db) |} in
  constraints db' = true ->
  well_formed db'.
Proof.
  intros Hwf Hin Hid Hrow db' Hn'.
  destruct (task_row_consistent db row Hwf Hrow) as [Hrefs Hdls].
  destruct Hwf as [Hp Ht Hu Hn Hr Hd].
  constructor; unfold db' in *; simpl in *; auto.
  - intros t Htin. apply In_replace in Htin. destruct Htin as [->|[Htin _]]; auto.
    rewrite Hid. auto.
  - intros t i Htin. apply In_replace in Htin. destruct Htin as [->|[Htin _]]; eauto.
  - intros t p d Htin. apply In_replace in Htin. destruct Htin as [->|[Htin _]]; eauto.
Qed.

(** What the [setattr]s of [update_task] leave in [project_id] and
    [deadline] is null or the value the validation used. *)
Lemma TaskUpdate_setattrs_project_id (task_update : TaskUpdate.t) (db_task : Task.t) (i : Z) :
  Task.project_id (TaskUpdate_setattrs task_update db_task) = Some i ->
  new_task_project_id task_update db_task = Some i.
Proof.
  unfold new_task_project_id. simpl.
  destruct (TaskUpdate.project_id task_update) as [[k|]|]; simpl; auto; discriminate.
Qed.

Lemma TaskUpdate_setattrs_deadline (task_update : TaskUpdate.t) (db_task : Task.t)
  (pd : option timestamp) (ctx : option Z) :
  check_deadline_consistency (new_task_deadline task_update db_task) pd ctx = Ok tt ->
  check_deadline_consistency (Task.deadline (TaskUpdate_setattrs task_update db_task)) pd ctx
  = Ok tt.
Proof.
  unfold new_task_deadline. simpl.
  destruct (TaskUpdate.deadline task_update) as [[d|]|]; simpl; auto.
Qed.

(** ** Requests keep the database well-formed *)

(** A step that leaves the session as it found it: the request goes on
    with the rest of the handler, or ends there with the database as it
    was. *)
Lemma request_bind_unchanged {A B : Type} (m : M A) (k : A -> M B) (db : DB)
  (r : result A) :
  m (open_session db) = (r, open_session db) ->
  request (bind m k) db
  = match r with
    | Ok a => request (k a) db
    | Raise e => (Raise e, db)
    end.
Proof.
  intros H. unfold request, bind. rewrite H. destruct r; reflexivity.
Qed.

Lemma request_db_get_Task {B : Type} (task_id : Z) (k : option Task.t -> M B)
  (db : DB) :
  request (bind (db_get_Task task_id) k) db
  = request (k (find (has_id_Task task_id) (tasks db))) db.
Proof. reflexivity. Qed.

Lemma request_db_get_Project {B : Type} (project_id : Z)
  (k : option Project.t -> M B) (db : DB) :
  request (bind (db_get_Project project_id) k) db
  = request (k (find (has_id_Project project_id) (projects db))) db.
Proof. reflexivity. Qed.

Lemma request_lift {A B : Type} (r : result A) (k : A -> M B) (db : DB) :
  request (bind (lift r) k) db
  = match r with
    | Ok a => request (k a) db
    | Raise e => (Raise e, db)
    end.
Proof. now apply request_bind_unchanged. Qed.

Lemma create_project_well_formed (db : DB) (project : ProjectCreate.t) :
  well_formed db -> well_formed (snd (request (create_project project) db)).
Proof.
  intros Hwf. unfold create_project. run_handler.
  match goal with |- context [constraints ?d] => destruct (constraints d) eqn:E end;
    simpl; [|exact Hwf].
  now apply well_formed_add_Project.
Qed.

(** The validation of [update_project] leaves the session as it is; when
    it passes with a deadline in the payload, every task of the project
    passed the checker. *)
Lemma update_project_validation_cases (payload_deadline : option timestamp)
  (db_project : Project.t) (s : Session) :
  let validation :=
    (if is_Some payload_deadline
     then owned <- Project_tasks db_project ;;
          for_each owned (fun task =>
            lift (check_deadline_consistency (Task.deadline task) payload_deadline
                                             (Some (Task.id task))))
     else ret tt) in
  (validation s = (Ok tt, s) /\
   forall new_deadline task,
     payload_deadline = Some new_deadline ->
     In task (tasks (working s)) ->
     Task.project_id task = Some (Project.id db_project) ->
     check_deadline_consistency (Task.deadline task) (Some new_deadline)
                                (Some (Task.id task)) = Ok tt) \/
  (exists e, validation s = (Raise e, s)).
Proof.
  destruct payload_deadline as [new_deadline|]; simpl.
  - unfold bind at 1, Project_tasks. simpl.
    fold (check_owned_tasks (Some new_deadline)
            (filter (owned_by (Project.id db_project)) (tasks (working s)))).
    destruct (check_owned_tasks_cases (Some new_deadline)
                (filter (owned_by (Project.id db_project)) (tasks (working s))) s)
      as [[Hrun Hok]|(before & task & after & e & _ & _ & _ & Hrun)].
    + left. split; [exact Hrun|]. intros nd task [= <-] Hin Hpid.
      apply Hok. apply filter_In. split; [exact Hin | now apply owned_by_iff].
    + right. eauto.
  - left. split; [reflexivity | discriminate].
Qed.

Lemma update_project_well_formed (db : DB) (project_id : Z)
  (project_update : ProjectUpdate.t) :
  well_formed db ->
  well_formed (snd (request (update_project project_id project_update) db)).
Proof.
  intros Hwf. unfold update_project. rewrite request_db_get_Project.
  destruct (find (has_id_Project project_id) (projects db)) as [db_project|] eqn:Hf;
    [|exact Hwf].
  apply find_has_id_Project in Hf. destruct Hf as [Hin Hid].
  destruct (update_project_validation_cases
              (attr (ProjectUpdate.deadline project_update)) db_project
              (open_session db))
    as [[Hrun Hchecks]|[e Hrun]];
    rewrite (request_bind_unchanged _ _ db _ Hrun); simpl; [|exact Hwf].
  run_handler.
  match goal with |- context [constraints ?d] => destruct (constraints d) eqn:E end;
    simpl; [|exact Hwf].
  now apply (well_formed_set_Project db project_update db_project).
Qed.

Lemma delete_project_well_formed (db : DB) (project_id : Z) :
  well_formed db -> well_formed (snd (request (delete_project project_id) db)).
Proof.
  intros Hwf. unfold delete_project. run_handler.
  destruct (find (has_id_Project project_id) (projects db)) as [db_project|] eqn:Hf;
    simpl; [|exact Hwf].
  match goal with |- context [constraints ?d] => destruct (constraints d) eqn:E end;
    simpl; [|exact Hwf].
  now apply well_formed_delete_Project.
Qed.

Lemma delete_task_well_formed (db : DB) (task_id : Z) :
  well_formed db -> well_formed (snd (request (delete_task task_id) db)).
Proof.
  intros Hwf. unfold delete_task. run_handler.
  destruct (find (has_id_Task task_id) (tasks db)) as [db_task|] eqn:Hf;
    simpl; [|exact Hwf].
  match goal with |- context [constraints ?d] => destruct (constraints d) eqn:E end;
    simpl; [|exact Hwf].
  now apply well_formed_delete_Task.
Qed.

(** The validation of [create_task] and [update_task] leaves the session
    as it is; when it passes, a [project_id] other than null and 0 names a
    project the deadline was checked against. *)
Lemma project_validation_cases (project_id : option Z) (deadline : option timestamp)
  (s : Session) :
  let validation :=
    when_truthy project_id (fun project_id =>
      project <- db_get_Project project_id ;;
      match project with
      | None => raise Project_not_found
      | Some project =>
          lift (check_deadline_consistency deadline (Project.deadline project) None)
      end) in
  (validation s = (Ok tt, s) /\
   forall i, project_id = Some i ->
     i = 0 \/ exists project,
       find (has_id_Project i) (projects (working s)) = Some project /\
       check_deadline_consistency deadline (Project.deadline project) None = Ok tt) \/
  (exists e, validation s = (Raise e, s)).
Proof.
  run_handler. destruct project_id as [i|].
  - destruct (Z.eqb_spec i 0) as [Hz|Hnz].
    + left. split; [reflexivity|]. intros j [= <-]. now left.
    + destruct (find (has_id_Project i) (projects (working s))) as [project|] eqn:Hf.
      * destruct (check_deadline_consistency deadline (Project.deadline project) None)
          as [[]|e] eqn:Hc.
        -- left. split; [reflexivity|]. intros j [= <-]. right. eauto.
        -- right. eauto.
      * right. eauto.
  - left. split; [reflexivity | discriminate].
Qed.

Lemma create_task_well_formed (db : DB) (task_create : TaskCreate.t) :
  well_formed db -> well_formed (snd (request (create_task task_create) db)).
Proof.
  intros Hwf. unfold create_task.
  destruct (project_validation_cases (TaskCreate.project_id task_create)
              (TaskCreate.deadline task_create) (open_session db))
    as [[Hrun Hrow]|[e Hrun]];
    rewrite (request_bind_unchanged _ _ db _ Hrun); simpl; [|exact Hwf].
  run_handler.
  match goal with |- context [constraints ?d] => destruct (constraints d) eqn:E end;
    simpl; [|exact Hwf].
  apply well_formed_add_Task; auto.
Qed.

Lemma update_task_well_formed (db : DB) (task_id : Z) (task_update : TaskUpdate.t) :
  well_formed db ->
  well_formed (snd (request (update_task task_id task_update) db)).
Proof.
  intros Hwf. unfold update_task.
  rewrite request_db_get_Task.
  destruct (find (has_id_Task task_id) (tasks db)) as [db_task|] eqn:Hf;
    [|exact Hwf].
  apply find_has_id_Task in Hf. destruct Hf as [Hin Hid].
  destruct (project_validation_cases (new_task_project_id task_update db_task)
              (new_task_deadline task_update db_task) (open_session db))
    as [[Hrun Hrow]|[e Hrun]];
    rewrite (request_bind_unchanged _ _ db _ Hrun); simpl; [|exact Hwf].
  run_handler.
  match goal with |- context [constraints ?d] => destruct (constraints d) eqn:E end;
    simpl; [|exact Hwf].
  apply (well_formed_set_Task db db_task (TaskUpdate_setattrs task_update db_task));
    auto.
  intros i Hi. apply TaskUpdate_setattrs_project_id in Hi.
  destruct (Hrow i Hi) as [Hz|(project & Hfp & Hc)]; [now left | right].
  exists project. split; [exact Hfp|]. now apply TaskUpdate_setattrs_deadline.
Qed.

Lemma link_task_to_project_well_formed (db : DB) (task_id project_id : Z) :
  well_formed db ->
  well_formed (snd (request (link_task_to_project task_id project_id) db)).
Proof.
  intros Hwf. unfold link_task_to_project.
  rewrite request_db_get_Task.
  destruct (find (has_id_Task task_id) (tasks db)) as [db_task|] eqn:Hf;
    [|exact Hwf].
  apply find_has_id_Task in Hf. destruct Hf as [Hin Hid].
  rewrite request_db_get_Project.
  destruct (find (has_id_Project project_id) (projects db)) as [db_project|] eqn:Hfp;
    [|exact Hwf].
  rewrite request_lift.
  destruct (check_deadline_consistency (Task.deadline db_task)
              (Project.deadline db_project) None) as [[]|e] eqn:Hc; [|exact Hwf].
  run_handler.
  match goal with |- context [constraints ?d] => destruct (constraints d) eqn:E end;
    simpl; [|exact Hwf].
  apply (well_formed_set_Task db db_task (set_project_id db_task project_id));
    auto.
  simpl. intros i [= <-]. right. eauto.
Qed.

Lemma step_well_formed (db : DB) (r : Request) :
  well_formed db -> well_formed (step db r).
Proof.
  destruct r; simpl.
  - apply create_project_well_formed.
  - apply update_project_well_formed.
  - apply delete_project_well_formed.
  - apply create_task_well_formed.
  - apply update_task_well_formed.
  - apply delete_task_well_formed.
  - apply link_task_to_project_well_formed.
Qed.

Lemma fold_step_well_formed (rs : list Request) (db : DB) :
  well_formed db -> well_formed (fold_left step rs db).
Proof.
  revert db. induction rs as [|r rs IH]; simpl; intros db Hwf; [exact Hwf|].
  apply IH. now apply step_well_formed.
Qed.

Lemma reachable_well_formed (db : DB) : reachable db -> well_formed db.
Proof.
  intros [rs ->]. apply fold_step_well_formed, well_formed_empty.
Qed.

(** ** Deadline consistency of every reachable database *)

(** C1.  In every database the requests of the API can produce (project
    create, update, delete; task create, update, delete; link to
    project), a task with a deadline whose [project_id] is the id of a
    project of the database is due no later than that project. *)
Theorem reachable_deadline_consistent :
  forall db : DB, reachable db -> deadline_consistent db.
Proof.
  intros db Hr. apply reachable_well_formed in Hr.
  intros task project d Hin Hpid Hf Hdl.
  apply find_has_id_Project in Hf. destruct Hf as [Hpin _].
  eapply wf_deadlines; eauto.
Qed.

Lemma reachable_run (rs : list Request) : reachable (run rs).
Proof. now exists rs. Qed.

Lemma reachable_deadline_consistent_witness :
  reachable (run project_with_task) /\ deadline_consistent (run project_with_task).
Proof.
  split.
  - exists project_with_task. reflexivity.
  - apply (reachable_deadline_consistent (run project_with_task)).
    exists project_with_task. reflexivity.
Defined.

(** ** Project update *)

Lemma check_raise_inv (td pd : option timestamp) (task_id : Z) (e : exception) :
  task_id <> 0 ->
  check_deadline_consistency td pd (Some task_id) = Raise e ->
  exists d nd, td = Some d /\ pd = Some nd /\ d > nd /\
               e = HTTPException 400 (contextual_message task_id).
Proof.
  intros Hnz. unfold check_deadline_consistency.
  destruct td as [d|], pd as [nd|]; try discriminate.
  destruct (Z.gtb_spec d nd); [|discriminate].
  destruct (Z.eqb_spec task_id 0); [contradiction|].
  intros [= <-]. exists d, nd. repeat split; auto. lia.
Qed.

(** C5.  A project update whose payload has a deadline runs the checker
    over the project's tasks, each with its own deadline, the payload's
    deadline and its own id as context, before anything is written.  When
    a task of the project is due later than the new deadline, the update
    is rejected with status 400 and the wording that names such a task,
    the session has no pending change and the database is as it was: the
    project row keeps all its fields. *)
Theorem update_project_deadline_rejected_unchanged :
  forall (db : DB) (project_id : Z) (project_update : ProjectUpdate.t)
         (db_project : Project.t) (payload_deadline : option timestamp),
    reachable db ->
    find (has_id_Project project_id) (projects db) = Some db_project ->
    ProjectUpdate.deadline project_update = Some payload_deadline ->
    let owned := filter (owned_by project_id) (tasks db) in
    update_project project_id project_update (open_session db)
    = (for_each owned (fun task =>
         lift (check_deadline_consistency (Task.deadline task) payload_deadline
                                          (Some (Task.id task)))) ;;
       db_set_Project (ProjectUpdate_setattrs project_update db_project) ;;
       db_commit ;;
       db_refresh_Project db_project) (open_session db)
    /\ ((exists task d new_deadline,
           In task owned /\ Task.deadline task = Some d /\
           payload_deadline = Some new_deadline /\ d > new_deadline) ->
        exists task d new_deadline,
          In task owned /\ Task.deadline task = Some d /\
          payload_deadline = Some new_deadline /\ d > new_deadline /\
          update_project project_id project_update (open_session db)
          = (Raise (HTTPException 400 (contextual_message (Task.id task))),
             open_session db) /\
          request (update_project project_id project_update) db
          = (Raise (HTTPException 400 (contextual_message (Task.id task))), db) /\
          find (has_id_Project project_id)
               (projects (snd (request (update_project project_id project_update) db)))
          = Some db_project)
    /\ ((forall task d new_deadline,
           In task owned -> Task.deadline task = Some d ->
           payload_deadline = Some new_deadline -> d <= new_deadline) ->
        for_each owned (fun task =>
          lift (check_deadline_consistency (Task.deadline task) payload_deadline
                                           (Some (Task.id task))))
          (open_session db)
        = (Ok tt, open_session db)).
Proof.
  intros db project_id project_update db_project v Hr Hf Hu owned.
  fold (check_owned_tasks v owned).
  apply reachable_well_formed in Hr.
  pose proof (find_has_id_Project _ _ _ Hf) as [Hpin Hpid].
  pose proof (check_owned_tasks_cases v owned (open_session db)) as Hcases.
  assert (Heq : update_project project_id project_update (open_session db)
    = (check_owned_tasks v owned ;;
       db_set_Project (ProjectUpdate_setattrs project_update db_project) ;;
       db_commit ;;
       db_refresh_Project db_project) (open_session db)).
  { unfold update_project, bind at 1, db_get_Project at 1. simpl. rewrite Hf.
    rewrite Hu. destruct v as [new_deadline|]; simpl.
    - unfold bind at 1 2 5, Project_tasks. simpl. rewrite Hpid. reflexivity.
    - destruct Hcases as [[Hrun _]|(before & task & after & e & _ & _ & Hc & _)].
      + unfold bind at 1 4. rewrite Hrun. reflexivity.
      + exfalso. unfold check_deadline_consistency in Hc.
        destruct (Task.deadline task); discriminate. }
  split; [exact Heq|].
  destruct Hcases
    as [[Hrun Hok]|(before & task & after & e & Hsplit & _ & Hc & Hrun)].
  - split; [|intros _; exact Hrun].
    intros (task & d & nd & Hin & Hd & -> & Hgt). exfalso.
    specialize (Hok task Hin). rewrite Hd in Hok.
    pose proof (proj1 (check_passes_iff _ _ _) Hok d nd eq_refl eq_refl).
    lia.
  - assert (Hin : In task owned).
    { rewrite Hsplit. apply in_or_app. right. now left. }
    assert (Hnz : Task.id task <> 0).
    { apply filter_In in Hin. destruct Hin as [Hin _].
      pose proof (wf_task_ids db Hr task Hin). lia. }
    destruct (check_raise_inv _ _ _ _ Hnz Hc) as (d & nd & Hd & -> & Hgt & ->).
    assert (Hraise : update_project project_id project_update (open_session db)
      = (Raise (HTTPException 400 (contextual_message (Task.id task))),
         open_session db)).
    { rewrite Heq. unfold bind at 1. now rewrite Hrun. }
    split.
    + intros _. exists task, d, nd. repeat split; auto.
      * unfold request. now rewrite Hraise.
      * unfold request. now rewrite Hraise.
    + intros Hall. specialize (Hall task d nd Hin Hd eq_refl). lia.
Qed.

Lemma update_project_deadline_rejected_unchanged_witness :
  exists task d new_deadline,
    In task (filter (owned_by 1) (tasks (run project_with_task))) /\
    Task.deadline task = Some d /\ Some 7 = Some new_deadline /\ d > new_deadline /\
    update_project 1 (ProjectUpdate.mk None (Some (Some 7)))
                   (open_session (run project_with_task))
    = (Raise (HTTPException 400 (contextual_message (Task.id task))),
       open_session (run project_with_task)) /\
    request (update_project 1 (ProjectUpdate.mk None (Some (Some 7))))
            (run project_with_task)
    = (Raise (HTTPException 400 (contextual_message (Task.id task))),
       run project_with_task) /\
    find (has_id_Project 1)
         (projects (snd (request (update_project 1 (ProjectUpdate.mk None (Some (Some 7))))
                                 (run project_with_task))))
    = Some (Project.mk 1 (Some "Launch") (Some 10)).
Proof.
  apply (update_project_deadline_rejected_unchanged
           (run project_with_task) 1 (ProjectUpdate.mk None (Some (Some 7)))
           (Project.mk 1 (Some "Launch") (Some 10)) (Some 7)
           (reachable_run project_with_task) eq_refl eq_refl).
  exists (Task.mk 1 (Some "Draft") None (Some 8) (Some false) (Some 1)), 8, 7.
  repeat split; simpl; auto.
Defined.

(** ** Writing a task row *)

Lemma find_replace_Task (i : Z) (row old : Task.t) (ts : list Task.t) :
  find (has_id_Task i) ts = Some old ->
  Task.id row = i ->
  find (has_id_Task i) (map (fun t => if has_id_Task i t then row else t) ts)
  = Some row.
Proof.
  intros Hf Hid. induction ts as [|t ts IH]; simpl in *; [discriminate|].
  destruct (has_id_Task i t) eqn:E; simpl.
  - unfold has_id_Task. rewrite Hid, Z.eqb_refl. reflexivity.
  - rewrite E. auto.
Qed.

(** The tail of [update_task] and [link_task_to_project]: the row of
    [db_task] rewritten as [row], committed and read back. *)
Lemma request_set_Task (db : DB) (db_task row : Task.t) :
  find (has_id_Task (Task.id db_task)) (tasks db) = Some db_task ->
  Task.id row = Task.id db_task ->
  let db' :=
    {| projects := projects db;
       tasks := map (fun t => if has_id_Task (Task.id db_task) t then row else t)
                    (tasks db) |} in
  (db_set_Task row ;; db_commit ;; db_refresh_Task db_task) (open_session db)
  = if constraints db'
    then (Ok row, {| committed := db'; working := db' |})
    else (Raise IntegrityError, {| committed := db; working := db' |}).
Proof.
  intros Hf Hid db'. run_handler. rewrite Hid. fold db'.
  destruct (constraints db'); simpl; [|reflexivity].
  unfold db'. simpl. rewrite (find_replace_Task _ row db_task); auto.
Qed.

(** ** Linking a task to a project *)



(** ** Task update *)

(** [update_task] on a stored task: the validation on the merged values,
    then the write. *)
Lemma update_task_found (db : DB) (task_id : Z) (task_update : TaskUpdate.t)
  (db_task : Task.t) :
  find (has_id_Task task_id) (tasks db) = Some db_task ->
  update_task task_id task_update (open_session db)
  = (when_truthy (new_task_project_id task_update db_task) (fun project_id =>
       project <- db_get_Project project_id ;;
       match project with
       | None => raise Project_not_found
       | Some project =>
           lift (check_deadline_consistency
                   (new_task_deadline task_update db_task)
                   (Project.deadline project) None)
       end) ;;
     db_set_Task (TaskUpdate_setattrs task_update db_task) ;;
     db_commit ;;
     db_refresh_Task db_task) (open_session db).
Proof.
  intros Hf. unfold update_task, bind at 1, db_get_Task at 1. simpl.
  now rewrite Hf.
Qed.

(** A successful [update_task] stores the row with the payload's fields
    written onto it, and returns it. *)
Lemma update_task_Ok (db db' : DB) (task_id : Z) (task_update : TaskUpdate.t)
  (db_task row : Task.t) :
  find (has_id_Task task_id) (tasks db) = Some db_task ->
  request (update_task task_id task_update) db = (Ok row, db') ->
  row = TaskUpdate_setattrs task_update db_task /\
  find (has_id_Task task_id) (tasks db') = Some row /\
  projects db' = projects db /\
  forall i, new_task_project_id task_update db_task = Some i ->
    i = 0 \/ exists project,
      find (has_id_Project i) (projects db) = Some project /\
      check_deadline_consistency (new_task_deadline task_update db_task)
                                 (Project.deadline project) None = Ok tt.
Proof.
  intros Hf. pose proof (find_has_id_Task _ _ _ Hf) as [_ Hid].
  unfold request. rewrite (update_task_found db task_id task_update db_task Hf).
  destruct (project_validation_cases (new_task_project_id task_update db_task)
              (new_task_deadline task_update db_task) (open_session db))
    as [[Hrun Hrow]|[e Hrun]]; unfold bind at 1; rewrite Hrun; [|discriminate].
  rewrite <- Hid in Hf.
  rewrite (request_set_Task db db_task (TaskUpdate_setattrs task_update db_task) Hf eq_refl).
  match goal with |- context [constraints ?d] => destruct (constraints d) end;
    simpl; [|discriminate].
  intros [= <- <-]. simpl. repeat split; auto.
  rewrite <- Hid. now apply find_replace_Task with (old := db_task).
Qed.

(** C10.  A task update that sets [deadline] or [project_id] to null:
    the validation reads the task's stored value for that field, as it
    does when the payload leaves the field out, and runs on those merged
    values; when the update succeeds the stored field is null.  So a
    task can be checked against the project the same update unlinks it
    from: the update that unlinks the task of [project_with_task] and
    moves its deadline past that project's is rejected, and the task
    stays linked. *)
Theorem update_task_explicit_null :
  (forall (db : DB) (task_id : Z) (task_update : TaskUpdate.t) (db_task : Task.t),
      find (has_id_Task task_id) (tasks db) = Some db_task ->
      (TaskUpdate.project_id task_update = Some None \/
       TaskUpdate.project_id task_update = None ->
       new_task_project_id task_update db_task = Task.project_id db_task) /\
      (TaskUpdate.deadline task_update = Some None \/
       TaskUpdate.deadline task_update = None ->
       new_task_deadline task_update db_task = Task.deadline db_task) /\
      update_task task_id task_update (open_session db)
      = (when_truthy (new_task_project_id task_update db_task) (fun project_id =>
           project <- db_get_Project project_id ;;
           match project with
           | None => raise Project_not_found
           | Some project =>
               lift (check_deadline_consistency
                       (new_task_deadline task_update db_task)
                       (Project.deadline project) None)
           end) ;;
         db_set_Task (TaskUpdate_setattrs task_update db_task) ;;
         db_commit ;;
         db_refresh_Task db_task) (open_session db) /\
      (forall row db',
          request (update_task task_id task_update) db = (Ok row, db') ->
          find (has_id_Task task_id) (tasks db') = Some row /\
          (TaskUpdate.project_id task_update = Some None ->
           Task.project_id row = None) /\
          (TaskUpdate.deadline task_update = Some None ->
           Task.deadline row = None) /\
          (forall i,
              TaskUpdate.project_id task_update = Some None ->
              Task.project_id db_task = Some i -> i <> 0 ->
              exists project,
                find (has_id_Project i) (projects db) = Some project /\
                check_deadline_consistency (new_task_deadline task_update db_task)
                                           (Project.deadline project) None = Ok tt))) /\
  (request (update_task 1 (TaskUpdate.mk None None (Some (Some 11)) None (Some None)))
           (run project_with_task)
   = (Raise (HTTPException 400 generic_message), run project_with_task) /\
   request (update_task 1 (TaskUpdate.mk None None (Some None) None (Some None)))
           (run project_with_task)
   = (Ok (Task.mk 1 (Some "Draft") None None (Some false) None),
      {| projects := [Project.mk 1 (Some "Launch") (Some 10)];
         tasks := [Task.mk 1 (Some "Draft") None None (Some false) None] |})).
Proof.
  split.
  - intros db task_id task_update db_task Hf. split; [|split; [|split]].
    + unfold new_task_project_id. now intros [->| ->].
    + unfold new_task_deadline. now intros [->| ->].
    + now apply update_task_found.
    + intros row db' Hreq.
      destruct (update_task_Ok db db' task_id task_update db_task row Hf Hreq)
        as (-> & Hfind & _ & Hval).
      split; [exact Hfind|]. simpl. split; [now intros ->|]. split; [now intros ->|].
      intros i Hnull Hstored Hnz.
      destruct (Hval i) as [Hz|H]; [|contradiction|exact H].
      unfold new_task_project_id. now rewrite Hnull.
  - split; reflexivity.
Qed.

Lemma update_task_explicit_null_witness :
  find (has_id_Task 1)
       (tasks {| projects := [Project.mk 1 (Some "Launch") (Some 10)];
                 tasks := [Task.mk 1 (Some "Draft") None None (Some false) None] |})
  = Some (Task.mk 1 (Some "Draft") None None (Some false) None) /\
  (TaskUpdate.project_id (TaskUpdate.mk None None (Some None) None (Some None))
   = Some None ->
   Task.project_id (Task.mk 1 (Some "Draft") None None (Some false) None) = None) /\
  (TaskUpdate.deadline (TaskUpdate.mk None None (Some None) None (Some None))
   = Some None ->
   Task.deadline (Task.mk 1 (Some "Draft") None None (Some false) None) = None).
Proof.
  pose proof (proj2 (proj2 (proj2 (proj1 update_task_explicit_null
           (run project_with_task) 1
           (TaskUpdate.mk None None (Some None) None (Some None))
           (Task.mk 1 (Some "Draft") None (Some 8) (Some false) (Some 1))
           eq_refl)))
         (Task.mk 1 (Some "Draft") None None (Some false) None)
         {| projects := [Project.mk 1 (Some "Launch") (Some 10)];
            tasks := [Task.mk 1 (Some "Draft") None None (Some false) None] |}
         eq_refl) as (H1 & H2 & H3 & _).
  exact (conj H1 (conj H2 H3)).
Defined.



(** The task of [task_then_project] has no project; the update that sets
    its [project_id] to 0 is accepted and stores 0, though no project has
    the id 0, while the same update with the id 99, which no project has
    either, is answered 404. *)
Lemma update_task_project_id_zero :
  find (has_id_Project 0) (projects (run task_then_project)) = None /\
  request (update_task 1 (TaskUpdate.mk None None None None (Some (Some 0))))
          (run task_then_project)
  = (Ok (Task.mk 1 (Some "Draft") None (Some 7) (Some false) (Some 0)),
     {| projects := [Project.mk 1 (Some "Launch") (Some 5)];
        tasks := [Task.mk 1 (Some "Draft") None (Some 7) (Some false) (Some 0)] |}) /\
  request (update_task 1 (TaskUpdate.mk None None None None (Some (Some 99))))
          (run task_then_project)
  = (Raise (HTTPException 404 "Project not found"), run task_then_project).
Proof. repeat split. Qed.




(** ** Task creation *)

(** With a [project_id] other than 0, [create_task] answers 404 when no
    project has that id, whatever the deadlines, and otherwise runs the
    checker, without context, on the payload's deadline against the
    project's before it adds the task. *)
Lemma create_task_checks_project (db : DB) (task_create : TaskCreate.t) (i : Z) :
  TaskCreate.project_id task_create = Some i ->
  i <> 0 ->
  (find (has_id_Project i) (projects db) = None ->
   create_task task_create (open_session db)
   = (Raise (HTTPException 404 "Project not found"), open_session db)) /\
  (forall project,
      find (has_id_Project i) (projects db) = Some project ->
      create_task task_create (open_session db)
      = (lift (check_deadline_consistency (TaskCreate.deadline task_create)
                                          (Project.deadline project) None) ;;
         new_task <- db_add_Task (Some (TaskCreate.title task_create))
                                 (TaskCreate.description task_create)
                                 (TaskCreate.deadline task_create)
                                 (Some (TaskCreate.completed task_create))
                                 (TaskCreate.project_id task_create) ;;
         db_commit ;;
         db_refresh_Task new_task) (open_session db)) /\
  (forall project e,
      find (has_id_Project i) (projects db) = Some project ->
      check_deadline_consistency (TaskCreate.deadline task_create)
                                 (Project.deadline project) None = Raise e ->
      request (create_task task_create) db = (Raise e, db)).
Proof.
  intros Hi Hnz. unfold request, create_task. rewrite Hi. unfold when_truthy.
  destruct (Z.eqb_spec i 0) as [|_]; [contradiction|].
  split; [|split].
  - intros Hp. unfold bind, db_get_Project. simpl. now rewrite Hp.
  - intros project Hp. unfold bind, db_get_Project, lift. simpl. now rewrite Hp.
  - intros project e Hp Hc. unfold bind, db_get_Project, lift. simpl.
    now rewrite Hp, Hc.
Qed.

(** C7, at the project id 0.  No project has the id 0, and the request
    that creates a task with [project_id] 0 is answered with the new task
    and stores it, where the same request with the id 99 is answered
    404. *)
Theorem create_task_project_id_zero :
  find (has_id_Project 0) (projects empty_DB) = None /\
  request (create_task (TaskCreate.mk "Stray" None None false (Some 0))) empty_DB
  = (Ok (Task.mk 1 (Some "Stray") None None (Some false) (Some 0)),
     {| projects := [];
        tasks := [Task.mk 1 (Some "Stray") None None (Some false) (Some 0)] |}) /\
  request (create_task (TaskCreate.mk "Stray" None None false (Some 99))) empty_DB
  = (Raise (HTTPException 404 "Project not found"), empty_DB).
Proof. repeat split. Qed.

(** ** Project deletion *)

(** After a project is deleted no task names it: its tasks have a null
    [project_id], the other tasks are as they were, and the project is
    gone. *)
Lemma delete_project_unlinks (db db' : DB) (project_id : Z) :
  request (delete_project project_id) db = (Ok tt, db') ->
  find (has_id_Project project_id) (projects db') = None /\
  (forall task, In task (tasks db') -> Task.project_id task <> Some project_id) /\
  tasks db' = map (fun t => if owned_by project_id t then unlink t else t) (tasks db).
Proof.
  unfold delete_project. rewrite request_db_get_Project.
  destruct (find (has_id_Project project_id) (projects db)) as [db_project|] eqn:Hf;
    [|discriminate].
  apply find_has_id_Project in Hf. destruct Hf as [_ Hid].
  run_handler. rewrite Hid.
  match goal with |- context [constraints ?d] => destruct (constraints d) end;
    simpl; [|discriminate].
  intros [= <-]. simpl. repeat split.
  - match goal with |- ?x = None => destruct x as [p|] eqn:Hf; [|reflexivity] end.
    apply find_some in Hf. destruct Hf as [Hin Hp].
    apply filter_In in Hin. destruct Hin as [_ Hn]. now rewrite Hp in Hn.
  - intros task Hin. apply in_map_iff in Hin. destruct Hin as (t & <- & _).
    destruct (owned_by project_id t) eqn:E; simpl; [discriminate|].
    intros H. apply owned_by_iff in H. congruence.
Qed.


(** In a reachable database a [project_id] other than null and 0 names a
    project of the database. *)
Lemma reachable_references (db : DB) (task : Task.t) (i : Z) :
  reachable db ->
  In task (tasks db) ->
  Task.project_id task = Some i ->
  i <> 0 ->
  exists project, find (has_id_Project i) (projects db) = Some project.
Proof.
  intros Hr Hin Hi Hnz. apply reachable_well_formed in Hr.
  destruct (wf_refs db Hr task i Hin Hi) as [Hz|Hex]; [contradiction|].
  apply in_map_iff in Hex. destruct Hex as (p & <- & Hpin).
  exists p. apply find_unique_Project; [apply (wf_project_unique db Hr) | exact Hpin].
Qed.

(* ===================================================================== *)
(** * Further properties of the handlers *)
(* ===================================================================== *)

(** ** Pagination *)

Lemma offset_limit_incl {A : Type} (skip limit : Z) (rows : list A) (x : A) :
  In x (offset_limit skip limit rows) -> In x rows.
Proof.
  unfold offset_limit. intros H.
  assert (Hrest : In x (skipn (Z.to_nat skip) rows)).
  { destruct (limit <? 0); [exact H|].
    rewrite <- (firstn_skipn (Z.to_nat limit) (skipn (Z.to_nat skip) rows)).
    apply in_or_app. now left. }
  rewrite <- (firstn_skipn (Z.to_nat skip) rows). apply in_or_app. now right.
Qed.

Lemma offset_limit_all {A : Type} (skip limit : Z) (rows : list A) :
  skip <= 0 ->
  limit < 0 \/ Z.of_nat (List.length rows) <= limit ->
  offset_limit skip limit rows = rows.
Proof.
  intros Hs Hl. unfold offset_limit.
  replace (Z.to_nat skip) with 0%nat by lia. simpl.
  destruct (Z.ltb_spec limit 0); [reflexivity|].
  apply firstn_all2. lia.
Qed.







Lemma get_project_tasks_found (db : DB) (project_id skip limit : Z)
  (db_project : Project.t) :
  find (has_id_Project project_id) (projects db) = Some db_project ->
  request (get_project_tasks project_id skip limit) db
  = (Ok (offset_limit skip limit (filter (owned_by project_id) (tasks db))), db).
Proof.
  intros Hf. unfold request, get_project_tasks, bind, db_get_Project. simpl.
  now rewrite Hf.
Qed.


(** X4.  What a client reads is consistent: in a reachable database,
    every task [get_project_tasks] returns for a project is due no later
    than the deadline [get_project] returns for that project. *)
Theorem get_project_tasks_within_deadline :
  forall (db db1 db2 : DB) (project_id skip limit : Z) (project : Project.t)
         (ts : list Task.t),
    reachable db ->
    request (get_project project_id) db = (Ok project, db1) ->
    request (get_project_tasks project_id skip limit) db = (Ok ts, db2) ->
    forall t d,
      In t ts -> Task.deadline t = Some d ->
      exists pd, Project.deadline project = Some pd /\ d <= pd.
Proof.
  intros db db1 db2 project_id skip limit project ts Hr Hp Hts t d Hin Hd.
  apply reachable_well_formed in Hr.
  unfold request, get_project, bind, db_get_Project in Hp. simpl in Hp.
  destruct (find (has_id_Project project_id) (projects db)) as [p|] eqn:Hf;
    simpl in Hp; [|discriminate].
  injection Hp as <- _.
  rewrite (get_project_tasks_found db project_id skip limit p Hf) in Hts.
  injection Hts as <- _.
  apply offset_limit_incl in Hin. apply filter_In in Hin. destruct Hin as [Htin Hpid].
  apply owned_by_iff in Hpid.
  apply find_has_id_Project in Hf. destruct Hf as [Hpin Hid].
  apply (wf_deadlines db Hr t p d Htin Hpin); [now rewrite Hid | exact Hd].
Qed.

Lemma get_project_tasks_within_deadline_witness :
  exists pd, Some 10 = Some pd /\ 8 <= pd.
Proof.
  apply (get_project_tasks_within_deadline
           (run project_with_task) (run project_with_task) (run project_with_task)
           1 0 100 (Project.mk 1 (Some "Launch") (Some 10))
           [Task.mk 1 (Some "Draft") None (Some 8) (Some false) (Some 1)]
           (reachable_run project_with_task) eq_refl eq_refl
           (Task.mk 1 (Some "Draft") None (Some 8) (Some false) (Some 1)) 8
           (or_introl eq_refl) eq_refl).
Defined.

(** ** Primary keys *)

Lemma map_id_replace_Task (i : Z) (new : Task.t) (ts : list Task.t) :
  Task.id new = i ->
  map Task.id (map (fun t => if has_id_Task i t then new else t) ts)
  = map Task.id ts.
Proof.
  intros Hi. rewrite map_map. apply map_ext. intros t. unfold has_id_Task.
  destruct (Z.eqb_spec (Task.id t) i); congruence.
Qed.

Lemma map_id_unlink (project_id : Z) (ts : list Task.t) :
  map Task.id (map (fun t => if owned_by project_id t then unlink t else t) ts)
  = map Task.id ts.
Proof.
  rewrite map_map. apply map_ext. intros t. now destruct (owned_by project_id t).
Qed.

Lemma map_id_filter_Task (i : Z) (ts : list Task.t) :
  map Task.id (filter (fun t => negb (has_id_Task i t)) ts)
  = filter (fun j => negb (j =? i)) (map Task.id ts).
Proof.
  induction ts as [|t ts IH]; simpl; [reflexivity|].
  unfold has_id_Task at 1. destruct (Task.id t =? i); simpl; now rewrite IH.
Qed.

(** How a request changes the ids in use in [tasks]: not at all, by one
    new id, the next rowid, or by removing one id. *)
Lemma step_task_ids (db : DB) (r : Request) :
  let ids := map Task.id (tasks db) in
  let ids' := map Task.id (tasks (step db r)) in
  ids' = ids \/ ids' = ids ++ [next_rowid ids] \/
  exists i, ids' = filter (fun j => negb (j =? i)) ids.
Proof.
  destruct r; simpl.
  - unfold create_project. run_handler.
    match goal with |- context [constraints ?d] => destruct (constraints d) end;
      simpl; now left.
  - unfold update_project. rewrite request_db_get_Project.
    destruct (find (has_id_Project project_id) (projects db)) as [db_project|];
      [|now left].
    destruct (update_project_validation_cases
                (attr (ProjectUpdate.deadline project_update)) db_project
                (open_session db))
      as [[Hrun _]|[e Hrun]];
      rewrite (request_bind_unchanged _ _ db _ Hrun); simpl; [|now left].
    run_handler.
    match goal with |- context [constraints ?d] => destruct (constraints d) end;
      simpl; now left.
  - unfold delete_project. rewrite request_db_get_Project.
    destruct (find (has_id_Project project_id) (projects db)) as [db_project|];
      [|now left].
    run_handler.
    match goal with |- context [constraints ?d] => destruct (constraints d) end;
      simpl; [|now left].
    left. apply map_id_unlink.
  - unfold create_task.
    destruct (project_validation_cases (TaskCreate.project_id task_create)
                (TaskCreate.deadline task_create) (open_session db))
      as [[Hrun _]|[e Hrun]];
      rewrite (request_bind_unchanged _ _ db _ Hrun); simpl; [|now left].
    run_handler.
    match goal with |- context [constraints ?d] => destruct (constraints d) end;
      simpl; [|now left].
    right. left. rewrite map_app. reflexivity.
  - unfold update_task. rewrite request_db_get_Task.
    destruct (find (has_id_Task task_id) (tasks db)) as [db_task|]; [|now left].
    destruct (project_validation_cases (new_task_project_id task_update db_task)
                (new_task_deadline task_update db_task) (open_session db))
      as [[Hrun _]|[e Hrun]];
      rewrite (request_bind_unchanged _ _ db _ Hrun); simpl; [|now left].
    run_handler.
    match goal with |- context [constraints ?d] => destruct (constraints d) end;
      simpl; [|now left].
    left. now apply map_id_replace_Task.
  - unfold delete_task. rewrite request_db_get_Task.
    destruct (find (has_id_Task task_id) (tasks db)) as [db_task|]; [|now left].
    run_handler.
    match goal with |- context [constraints ?d] => destruct (constraints d) end;
      simpl; [|now left].
    right. right. exists (Task.id db_task). apply map_id_filter_Task.
  - unfold link_task_to_project. rewrite request_db_get_Task.
    destruct (find (has_id_Task task_id) (tasks db)) as [db_task|]; [|now left].
    rewrite request_db_get_Project.
    destruct (find (has_id_Project project_id) (projects db)) as [db_project|];
      [|now left].
    rewrite request_lift.
    destruct (check_deadline_consistency (Task.deadline db_task)
                (Project.deadline db_project) None) as [[]|e]; [|now left].
    run_handler.
    match goal with |- context [constraints ?d] => destruct (constraints d) end;
      simpl; [|now left].
    left. now apply map_id_replace_Task.
Qed.

Lemma step_unique_task_ids (db : DB) (r : Request) :
  unique_task_ids db -> unique_task_ids (step db r).
Proof.
  unfold unique_task_ids. intros Hnd.
  destruct (step_task_ids db r) as [->|[->|[i ->]]].
  - exact Hnd.
  - apply NoDup_app; auto.
    + repeat constructor. simpl. tauto.
    + intros j Hj [<-|[]]. apply next_rowid_fresh in Hj. lia.
  - now apply NoDup_filter.
Qed.

Lemma reachable_unique_task_ids (db : DB) : reachable db -> unique_task_ids db.
Proof.
  intros [rs ->]. unfold run.
  assert (H : forall db, unique_task_ids db -> unique_task_ids (fold_left step rs db)).
  { induction rs as [|r rs IH]; simpl; intros db Hu; [exact Hu|].
    apply IH. now apply step_unique_task_ids. }
  apply H. constructor.
Qed.

Lemma find_unique_Task (ts : list Task.t) (t : Task.t) :
  NoDup (map Task.id ts) -> In t ts ->
  find (has_id_Task (Task.id t)) ts = Some t.
Proof.
  induction ts as [|q ts IH]; simpl; [contradiction|].
  intros Hnd Hin. inversion Hnd as [|? ? Hq Hnd']; subst.
  unfold has_id_Task at 1. destruct (Z.eqb_spec (Task.id q) (Task.id t)) as [E|E].
  - destruct Hin as [->|Hin]; [reflexivity|].
    exfalso. apply Hq. rewrite E. now apply in_map.
  - destruct Hin as [->|Hin]; [contradiction|]. now apply IH.
Qed.

(** X5.  Ids are primary keys: in a reachable database every id is at
    least 1, no two projects share an id and no two tasks share an id, so
    [get_project] and [get_task] on the id of a stored row return that
    row. *)
Theorem reachable_ids_are_keys :
  forall db : DB,
    reachable db ->
    (forall project, In project (projects db) ->
       1 <= Project.id project /\
       request (get_project (Project.id project)) db = (Ok project, db)) /\
    (forall task, In task (tasks db) ->
       1 <= Task.id task /\
       request (get_task (Task.id task)) db = (Ok task, db)).
Proof.
  intros db Hr. pose proof (reachable_unique_task_ids db Hr) as Hu.
  apply reachable_well_formed in Hr. split.
  - intros project Hin. split; [now apply (wf_project_ids db Hr)|].
    unfold request, get_project, bind, db_get_Project. simpl.
    now rewrite (find_unique_Project _ _ (wf_project_unique db Hr) Hin).
  - intros task Hin. split; [now apply (wf_task_ids db Hr)|].
    unfold request, get_task, bind, db_get_Task. simpl.
    now rewrite (find_unique_Task _ _ Hu Hin).
Qed.

Lemma reachable_ids_are_keys_witness :
  1 <= 2 /\
  request (get_task 2) (run zero_then_delete)
  = (Ok (Task.mk 2 (Some "Draft") None (Some 8) (Some false) None),
     run zero_then_delete).
Proof.
  apply (proj2 (reachable_ids_are_keys (run zero_then_delete)
                  (reachable_run zero_then_delete))
               (Task.mk 2 (Some "Draft") None (Some 8) (Some false) None)).
  vm_compute. tauto.
Defined.

(** ** Creating rows *)

Lemma find_app_Some {A : Type} (f : A -> bool) (l l' : list A) (x : A) :
  find f l = Some x -> find f (l ++ l') = Some x.
Proof.
  induction l as [|a l IH]; simpl; [discriminate|]. destruct (f a); auto.
Qed.

Lemma find_app_None {A : Type} (f : A -> bool) (l l' : list A) :
  find f l = None -> find f (l ++ l') = find f l'.
Proof.
  induction l as [|a l IH]; simpl; [reflexivity|].
  destruct (f a); [discriminate | auto].
Qed.

Lemma find_fresh {A : Type} (f : A -> bool) (l : list A) :
  (forall x, In x l -> f x = false) -> find f l = None.
Proof.
  induction l as [|a l IH]; simpl; intros H; [reflexivity|].
  rewrite (H a (or_introl eq_refl)). apply IH. auto.
Qed.

Lemma find_next_rowid_Project (ps : list Project.t) :
  find (has_id_Project (next_rowid (map Project.id ps))) ps = None.
Proof.
  apply find_fresh. intros p Hin. unfold has_id_Project. apply Z.eqb_neq.
  pose proof (next_rowid_fresh (map Project.id ps) (Project.id p) (in_map _ _ _ Hin)).
  lia.
Qed.

Lemma find_next_rowid_Task (ts : list Task.t) :
  find (has_id_Task (next_rowid (map Task.id ts))) ts = None.
Proof.
  apply find_fresh. intros t Hin. unfold has_id_Task. apply Z.eqb_neq.
  pose proof (next_rowid_fresh (map Task.id ts) (Task.id t) (in_map _ _ _ Hin)).
  lia.
Qed.




Lemma get_project_found (db : DB) (project_id : Z) (project : Project.t) :
  find (has_id_Project project_id) (projects db) = Some project ->
  request (get_project project_id) db = (Ok project, db).
Proof.
  intros Hf. unfold request, get_project, bind, db_get_Project. simpl.
  now rewrite Hf.
Qed.

Lemma get_task_found (db : DB) (task_id : Z) (task : Task.t) :
  find (has_id_Task task_id) (tasks db) = Some task ->
  request (get_task task_id) db = (Ok task, db).
Proof.
  intros Hf. unfold request, get_task, bind, db_get_Task. simpl. now rewrite Hf.
Qed.

(** [create_project] on a database whose NOT NULL columns are filled. *)
Lemma create_project_request (db : DB) (project : ProjectCreate.t) :
  constraints db = true ->
  let row := Project.mk (next_rowid (map Project.id (projects db)))
                        (Some (ProjectCreate.title project))
                        (Some (ProjectCreate.deadline project)) in
  request (create_project project) db
  = (Ok row, {| projects := projects db ++ [row]; tasks := tasks db |}).
Proof.
  intros Hn row. unfold create_project. run_handler. fold row.
  assert (Hn' : constraints {| projects := projects db ++ [row]; tasks := tasks db |}
                = true).
  { apply constraints_iff in Hn. destruct Hn as [Hn1 Hn2].
    apply constraints_iff. simpl. split; [|exact Hn2].
    intros p Hin. apply in_app_or in Hin. destruct Hin as [Hin|[<-|[]]]; auto. }
  rewrite Hn'. simpl.
  rewrite (find_app_None _ _ _ (find_next_rowid_Project (projects db))). simpl.
  unfold has_id_Project. simpl. now rewrite Z.eqb_refl.
Qed.



(** The tail of [create_task]: the row added, committed and read back. *)
Lemma request_add_Task (db : DB) (title description : option string)
  (deadline : option timestamp) (completed : option bool) (project_id : option Z) :
  let row := Task.mk (next_rowid (map Task.id (tasks db)))
                     title description deadline completed project_id in
  let db' := {| projects := projects db; tasks := tasks db ++ [row] |} in
  request (new_task <- db_add_Task title description deadline completed project_id ;;
           db_commit ;;
           db_refresh_Task new_task) db
  = if constraints db' then (Ok row, db') else (Raise IntegrityError, db).
Proof.
  intros row db'. run_handler. fold row. fold db'.
  destruct (constraints db'); simpl; [|reflexivity].
  rewrite (find_app_None _ _ _ (find_next_rowid_Task (tasks db))). simpl.
  unfold has_id_Task. simpl. now rewrite Z.eqb_refl.
Qed.

(** X7.  A task that [create_task] accepts is stored as the payload gave
    it, under an id larger than every id in use: it is the last row of
    [tasks], [get_task] on its id returns it, and the rows that were
    stored are as they were. *)
Theorem create_task_round_trip :
  forall (db db' : DB) (task_create : TaskCreate.t) (row : Task.t),
    request (create_task task_create) db = (Ok row, db') ->
    Task.title row = Some (TaskCreate.title task_create) /\
    Task.description row = TaskCreate.description task_create /\
    Task.deadline row = TaskCreate.deadline task_create /\
    Task.completed row = Some (TaskCreate.completed task_create) /\
    Task.project_id row = TaskCreate.project_id task_create /\
    (forall t, In t (tasks db) -> Task.id t < Task.id row) /\
    tasks db' = tasks db ++ [row] /\
    projects db' = projects db /\
    request (get_task (Task.id row)) db' = (Ok row, db') /\
    (forall i t,
        find (has_id_Task i) (tasks db) = Some t ->
        request (get_task i) db' = (Ok t, db')).
Proof.
  intros db db' task_create row. unfold create_task.
  destruct (project_validation_cases (TaskCreate.project_id task_create)
              (TaskCreate.deadline task_create) (open_session db))
    as [[Hrun _]|[e Hrun]];
    rewrite (request_bind_unchanged _ _ db _ Hrun); simpl; [|discriminate].
  rewrite request_add_Task.
  match goal with |- context [constraints ?d] => destruct (constraints d) end;
    [|discriminate].
  intros [= <- <-]. simpl. repeat split.
  - intros t Hin. apply next_rowid_fresh. now apply in_map.
  - apply get_task_found. simpl.
    rewrite (find_app_None _ _ _ (find_next_rowid_Task (tasks db))). simpl.
    unfold has_id_Task. simpl. now rewrite Z.eqb_refl.
  - intros i t Hf. apply get_task_found. simpl. now apply find_app_Some.
Qed.

Lemma create_task_round_trip_witness :
  Task.title (Task.mk 2 (Some "Review") (Some "notes") (Some 9) (Some true) (Some 1))
  = Some "Review" /\
  Task.description (Task.mk 2 (Some "Review") (Some "notes") (Some 9) (Some true) (Some 1))
  = Some "notes" /\
  Task.deadline (Task.mk 2 (Some "Review") (Some "notes") (Some 9) (Some true) (Some 1))
  = Some 9.
Proof.
  pose proof (create_task_round_trip (run project_with_task)
    {| projects := [Project.mk 1 (Some "Launch") (Some 10)];
       tasks := [Task.mk 1 (Some "Draft") None (Some 8) (Some false) (Some 1);
                 Task.mk 2 (Some "Review") (Some "notes") (Some 9) (Some true) (Some 1)] |}
    (TaskCreate.mk "Review" (Some "notes") (Some 9) true (Some 1))
    (Task.mk 2 (Some "Review") (Some "notes") (Some 9) (Some true) (Some 1))
    eq_refl) as (H1 & H2 & H3 & _).
  exact (conj H1 (conj H2 H3)).
Defined.

(** X8.  On a reachable database [create_task] accepts a task without
    project, whatever its deadline, and a task of an existing project
    that has no deadline or is due no later than the project. *)
Theorem create_task_accepts :
  forall (db : DB) (task_create : TaskCreate.t),
    reachable db ->
    (TaskCreate.project_id task_create = None \/
     exists i project,
       TaskCreate.project_id task_create = Some i /\
       find (has_id_Project i) (projects db) = Some project /\
       forall d pd,
         TaskCreate.deadline task_create = Some d ->
         Project.deadline project = Some pd -> d <= pd) ->
    exists row db', request (create_task task_create) db = (Ok row, db').
Proof.
  intros db task_create Hr Hcase. apply reachable_well_formed in Hr.
  unfold create_task.
  assert (Hrun : when_truthy (TaskCreate.project_id task_create) (fun project_id =>
            project <- db_get_Project project_id ;;
            match project with
            | None => raise Project_not_found
            | Some project =>
                lift (check_deadline_consistency (TaskCreate.deadline task_create)
                                                 (Project.deadline project) None)
            end) (open_session db) = (Ok tt, open_session db)).
  { destruct Hcase as [->|(i & project & -> & Hf & Hle)]; [reflexivity|].
    unfold when_truthy. destruct (i =? 0); [reflexivity|].
    unfold bind, db_get_Project, lift. simpl. rewrite Hf.
    now rewrite (proj2 (check_passes_iff _ _ None) Hle). }
  rewrite (request_bind_unchanged _ _ db _ Hrun). rewrite request_add_Task.
  match goal with |- context [constraints ?d] =>
    assert (Hn : constraints d = true) end.
  { pose proof (wf_not_null db Hr) as Hn. apply constraints_iff in Hn.
    destruct Hn as [Hn1 Hn2]. apply constraints_iff. simpl. split; [exact Hn1|].
    intros t Hin. apply in_app_or in Hin. destruct Hin as [Hin|[<-|[]]]; auto. }
  rewrite Hn. eauto.
Qed.

Lemma create_task_accepts_witness :
  exists row db',
    request (create_task (TaskCreate.mk "Open" None None false (Some 1)))
            (run project_with_task)
    = (Ok row, db').
Proof.
  apply (create_task_accepts (run project_with_task)
           (TaskCreate.mk "Open" None None false (Some 1))
           (reachable_run project_with_task)).
  right. exists 1, (Project.mk 1 (Some "Launch") (Some 10)).
  repeat split. discriminate.
Defined.

(** ** Deleting rows *)

Lemma find_filter_other_Task (i j : Z) (ts : list Task.t) :
  i <> j ->
  find (has_id_Task i) (filter (fun t => negb (has_id_Task j t)) ts)
  = find (has_id_Task i) ts.
Proof.
  intros Hij. induction ts as [|t ts IH]; simpl; [reflexivity|].
  destruct (has_id_Task j t) eqn:Ej, (has_id_Task i t) eqn:Ei; simpl;
    rewrite ?Ei; auto.
  unfold has_id_Task in Ej, Ei. apply Z.eqb_eq in Ej, Ei. congruence.
Qed.

Lemma find_filter_same_Task (j : Z) (ts : list Task.t) :
  find (has_id_Task j) (filter (fun t => negb (has_id_Task j t)) ts) = None.
Proof.
  apply find_fresh. intros t Hin. apply filter_In in Hin.
  destruct Hin as [_ H]. now apply negb_true_iff in H.
Qed.

Lemma find_filter_other_Project (i j : Z) (ps : list Project.t) :
  i <> j ->
  find (has_id_Project i) (filter (fun p => negb (has_id_Project j p)) ps)
  = find (has_id_Project i) ps.
Proof.
  intros Hij. induction ps as [|p ps IH]; simpl; [reflexivity|].
  destruct (has_id_Project j p) eqn:Ej, (has_id_Project i p) eqn:Ei; simpl;
    rewrite ?Ei; auto.
  unfold has_id_Project in Ej, Ei. apply Z.eqb_eq in Ej, Ei. congruence.
Qed.

Lemma find_filter_same_Project (j : Z) (ps : list Project.t) :
  find (has_id_Project j) (filter (fun p => negb (has_id_Project j p)) ps) = None.
Proof.
  apply find_fresh. intros p Hin. apply filter_In in Hin.
  destruct Hin as [_ H]. now apply negb_true_iff in H.
Qed.

Lemma find_map_Task (f : Task.t -> Task.t) (i : Z) (ts : list Task.t) :
  (forall t, Task.id (f t) = Task.id t) ->
  find (has_id_Task i) (map f ts) = option_map f (find (has_id_Task i) ts).
Proof.
  intros Hid. induction ts as [|t ts IH]; simpl; [reflexivity|].
  replace (has_id_Task i (f t)) with (has_id_Task i t)
    by (unfold has_id_Task; now rewrite Hid).
  destruct (has_id_Task i t); [reflexivity | exact IH].
Qed.

(** X9.  [delete_task] on a stored task of a reachable database removes
    that task and nothing else: afterwards [get_task] and a second
    [delete_task] on its id answer 404, every other task reads as before,
    and the projects are untouched. *)
Theorem delete_task_removes_only_it :
  forall (db : DB) (task_id : Z) (db_task : Task.t),
    reachable db ->
    find (has_id_Task task_id) (tasks db) = Some db_task ->
    exists db',
      request (delete_task task_id) db = (Ok tt, db') /\
      projects db' = projects db /\
      request (get_task task_id) db'
      = (Raise (HTTPException 404 "Task not found"), db') /\
      request (delete_task task_id) db'
      = (Raise (HTTPException 404 "Task not found"), db') /\
      (forall i, i <> task_id ->
         find (has_id_Task i) (tasks db') = find (has_id_Task i) (tasks db)).
Proof.
  intros db task_id db_task Hr Hf. apply reachable_well_formed in Hr.
  pose proof (find_has_id_Task _ _ _ Hf) as [_ Hid].
  set (db' := {| projects := projects db;
                 tasks := filter (fun t => negb (has_id_Task task_id t)) (tasks db) |}).
  assert (Hreq : request (delete_task task_id) db = (Ok tt, db')).
  { unfold delete_task. rewrite request_db_get_Task, Hf. run_handler. rewrite Hid.
    fold db'.
    assert (Hn : constraints db' = true).
    { pose proof (wf_not_null db Hr) as Hn. apply constraints_iff in Hn.
      destruct Hn as [Hn1 Hn2]. apply constraints_iff. simpl. split; [exact Hn1|].
      intros t Hin. apply filter_In in Hin. apply Hn2, Hin. }
    now rewrite Hn. }
  exists db'. split; [exact Hreq|]. simpl.
  split; [reflexivity|]. split; [|split].
  - unfold request, get_task, bind, db_get_Task. simpl.
    now rewrite find_filter_same_Task.
  - unfold delete_task. rewrite request_db_get_Task. simpl.
    now rewrite find_filter_same_Task.
  - intros i Hi. now apply find_filter_other_Task.
Qed.

Lemma delete_task_removes_only_it_witness :
  exists db',
    request (delete_task 1) (run zero_then_delete) = (Ok tt, db') /\
    projects db' = projects (run zero_then_delete) /\
    request (get_task 1) db' = (Raise (HTTPException 404 "Task not found"), db') /\
    request (delete_task 1) db' = (Raise (HTTPException 404 "Task not found"), db') /\
    (forall i, i <> 1 ->
       find (has_id_Task i) (tasks db')
       = find (has_id_Task i) (tasks (run zero_then_delete))).
Proof.
  exact (delete_task_removes_only_it (run zero_then_delete) 1
           (Task.mk 1 (Some "Stray") None None (Some false) (Some 0))
           (reachable_run zero_then_delete) eq_refl).
Defined.

(** X10.  [delete_project] on a stored project of a reachable database
    removes the project and keeps every task: afterwards [get_project] on
    its id answers 404, the other projects read as before, each task that
    named the project reads with a null [project_id] and is otherwise as
    it was, every other task is unchanged, and no task names the deleted
    id. *)
Theorem delete_project_keeps_tasks :
  forall (db : DB) (project_id : Z) (db_project : Project.t),
    reachable db ->
    find (has_id_Project project_id) (projects db) = Some db_project ->
    exists db',
      request (delete_project project_id) db = (Ok tt, db') /\
      request (get_project project_id) db'
      = (Raise (HTTPException 404 "Project not found"), db') /\
      (forall i, i <> project_id ->
         find (has_id_Project i) (projects db') = find (has_id_Project i) (projects db)) /\
      (forall i t,
         find (has_id_Task i) (tasks db) = Some t ->
         find (has_id_Task i) (tasks db')
         = Some (if owned_by project_id t then unlink t else t)) /\
      List.length (tasks db') = List.length (tasks db) /\
      (forall t, In t (tasks db') -> Task.project_id t <> Some project_id).
Proof.
  intros db project_id db_project Hr Hf. apply reachable_well_formed in Hr.
  pose proof (find_has_id_Project _ _ _ Hf) as [_ Hid].
  set (db' := {| projects := filter (fun p => negb (has_id_Project project_id p))
                                    (projects db);
                 tasks := map (fun t => if owned_by project_id t then unlink t else t)
                              (tasks db) |}).
  assert (Hreq : request (delete_project project_id) db = (Ok tt, db')).
  { unfold delete_project. rewrite request_db_get_Project, Hf. run_handler.
    rewrite Hid. fold db'.
    assert (Hn : constraints db' = true).
    { pose proof (wf_not_null db Hr) as Hn. apply constraints_iff in Hn.
      destruct Hn as [Hn1 Hn2]. apply constraints_iff. simpl. split.
      - intros p Hin. apply filter_In in Hin. apply Hn1, Hin.
      - intros t' Hin. apply in_map_iff in Hin. destruct Hin as (t & <- & Hin).
        rewrite <- (Hn2 t Hin). now destruct (owned_by project_id t). }
    now rewrite Hn. }
  exists db'. split; [exact Hreq|]. simpl. split; [|split; [|split; [|split]]].
  - unfold request, get_project, bind, db_get_Project. simpl.
    now rewrite find_filter_same_Project.
  - intros i Hi. now apply find_filter_other_Project.
  - intros i t Hft. rewrite find_map_Task; [now rewrite Hft|].
    intros u. now destruct (owned_by project_id u).
  - apply length_map.
  - intros t' Hin. apply in_map_iff in Hin. destruct Hin as (t & <- & _).
    destruct (owned_by project_id t) eqn:E; simpl; [discriminate|].
    intros H. apply owned_by_iff in H. congruence.
Qed.

Lemma delete_project_keeps_tasks_witness :
  exists db',
    request (delete_project 1) (run project_with_task) = (Ok tt, db') /\
    request (get_project 1) db'
    = (Raise (HTTPException 404 "Project not found"), db') /\
    (forall i, i <> 1 ->
       find (has_id_Project i) (projects db')
       = find (has_id_Project i) (projects (run project_with_task))) /\
    (forall i t,
       find (has_id_Task i) (tasks (run project_with_task)) = Some t ->
       find (has_id_Task i) (tasks db')
       = Some (if owned_by 1 t then unlink t else t)) /\
    List.length (tasks db') = List.length (tasks (run project_with_task)) /\
    (forall t, In t (tasks db') -> Task.project_id t <> Some 1).
Proof.
  exact (delete_project_keeps_tasks (run project_with_task) 1
           (Project.mk 1 (Some "Launch") (Some 10))
           (reachable_run project_with_task) eq_refl).
Defined.

(** ** Updates that are accepted *)

Lemma find_replace_Project (i : Z) (row old : Project.t) (ps : list Project.t) :
  find (has_id_Project i) ps = Some old ->
  Project.id row = i ->
  find (has_id_Project i) (map (fun p => if has_id_Project i p then row else p) ps)
  = Some row.
Proof.
  intros Hf Hid. induction ps as [|p ps IH]; simpl in *; [discriminate|].
  destruct (has_id_Project i p) eqn:E; simpl.
  - unfold has_id_Project. rewrite Hid, Z.eqb_refl. reflexivity.
  - rewrite E. auto.
Qed.

Lemma find_replace_other_Project (i j : Z) (row : Project.t) (ps : list Project.t) :
  i <> j -> Project.id row = j ->
  find (has_id_Project i) (map (fun p => if has_id_Project j p then row else p) ps)
  = find (has_id_Project i) ps.
Proof.
  intros Hij Hid. induction ps as [|p ps IH]; simpl; [reflexivity|].
  destruct (has_id_Project j p) eqn:Ej, (has_id_Project i p) eqn:Ei; simpl;
    rewrite ?Ei; auto.
  - unfold has_id_Project in Ej, Ei. apply Z.eqb_eq in Ej, Ei. congruence.
  - replace (has_id_Project i row) with false; [exact IH|].
    symmetry. unfold has_id_Project. apply Z.eqb_neq. congruence.
Qed.

Lemma find_replace_other_Task (i j : Z) (row : Task.t) (ts : list Task.t) :
  i <> j -> Task.id row = j ->
  find (has_id_Task i) (map (fun t => if has_id_Task j t then row else t) ts)
  = find (has_id_Task i) ts.
Proof.
  intros Hij Hid. induction ts as [|t ts IH]; simpl; [reflexivity|].
  destruct (has_id_Task j t) eqn:Ej, (has_id_Task i t) eqn:Ei; simpl;
    rewrite ?Ei; auto.
  - unfold has_id_Task in Ej, Ei. apply Z.eqb_eq in Ej, Ei. congruence.
  - replace (has_id_Task i row) with false; [exact IH|].
    symmetry. unfold has_id_Task. apply Z.eqb_neq. congruence.
Qed.

(** The tail of [update_project]. *)
Lemma request_set_Project (db : DB) (db_project row : Project.t) :
  find (has_id_Project (Project.id db_project)) (projects db) = Some db_project ->
  Project.id row = Project.id db_project ->
  let db' :=
    {| projects := map (fun p => if has_id_Project (Project.id db_project) p
                                 then row else p) (projects db);
       tasks := tasks db |} in
  request (db_set_Project row ;; db_commit ;; db_refresh_Project db_project) db
  = if constraints db' then (Ok row, db') else (Raise IntegrityError, db).
Proof.
  intros Hf Hid db'. run_handler. rewrite Hid. fold db'.
  destruct (constraints db'); simpl; [|reflexivity].
  unfold db'. simpl. rewrite (find_replace_Project _ row db_project); auto.
Qed.

(** An [update_project] whose payload sets no null and no deadline earlier
    than a task of the project is written. *)
Lemma update_project_accepted (db : DB) (project_id : Z)
  (project_update : ProjectUpdate.t) (db_project : Project.t) :
  well_formed db ->
  find (has_id_Project project_id) (projects db) = Some db_project ->
  ProjectUpdate.title project_update <> Some None ->
  ProjectUpdate.deadline project_update <> Some None ->
  (forall new_deadline task d,
      ProjectUpdate.deadline project_update = Some (Some new_deadline) ->
      In task (tasks db) ->
      Task.project_id task = Some project_id ->
      Task.deadline task = Some d ->
      d <= new_deadline) ->
  request (update_project project_id project_update) db
  = (Ok (ProjectUpdate_setattrs project_update db_project),
     {| projects := map (fun p => if has_id_Project project_id p
                                  then ProjectUpdate_setattrs project_update db_project
                                  else p) (projects db);
        tasks := tasks db |}).
Proof.
  intros Hwf Hf Htitle Hdl Hle.
  pose proof (find_has_id_Project _ _ _ Hf) as [Hin Hid].
  unfold update_project. rewrite request_db_get_Project, Hf.
  destruct (update_project_validation_cases
              (attr (ProjectUpdate.deadline project_update)) db_project
              (open_session db)) as [[Hrun _]|[e Hrun]].
  - rewrite (request_bind_unchanged _ _ db _ Hrun).
    rewrite <- Hid in Hf.
    rewrite (request_set_Project db db_project
               (ProjectUpdate_setattrs project_update db_project) Hf eq_refl).
    rewrite Hid.
    match goal with |- context [constraints ?d] =>
      assert (Hn : constraints d = true) end.
    { pose proof (wf_not_null db Hwf) as Hn. apply constraints_iff in Hn.
      destruct Hn as [Hn1 Hn2]. apply constraints_iff. simpl. split; [|exact Hn2].
      intros p Hp. apply In_replace in Hp. destruct Hp as [->|[Hp _]]; auto.
      specialize (Hn1 db_project Hin). unfold not_null_Project in *. simpl.
      apply andb_true_iff in Hn1. destruct Hn1 as [Ht Hd].
      destruct (ProjectUpdate.title project_update) as [[t|]|];
        destruct (ProjectUpdate.deadline project_update) as [[d|]|];
        simpl; try congruence; rewrite ?Ht, ?Hd; reflexivity. }
    now rewrite Hn.
  - exfalso.
    destruct (ProjectUpdate.deadline project_update) as [[nd|]|] eqn:Hu;
      simpl in Hrun; try discriminate.
    unfold bind at 1, Project_tasks in Hrun. simpl in Hrun.
    fold (check_owned_tasks (Some nd)
            (filter (owned_by (Project.id db_project)) (tasks db))) in Hrun.
    destruct (check_owned_tasks_cases (Some nd)
                (filter (owned_by (Project.id db_project)) (tasks db))
                (open_session db))
      as [[Hok _]|(before & task & after & e' & Hsplit & _ & Hc & _)].
    + rewrite Hok in Hrun. discriminate.
    + assert (Hto : In task (filter (owned_by (Project.id db_project)) (tasks db))).
      { rewrite Hsplit. apply in_or_app. right. now left. }
      apply filter_In in Hto. destruct Hto as [Htin Hown].
      apply owned_by_iff in Hown. rewrite Hid in Hown.
      assert (Hpass : check_deadline_consistency (Task.deadline task) (Some nd)
                        (Some (Task.id task)) = Ok tt).
      { apply check_passes_iff. intros a b Ha [= <-]. eapply Hle; eauto. }
      congruence.
Qed.

(** X11.  On a reachable database, [update_project] on a stored project
    succeeds whenever the payload sets no field to null and its deadline,
    if it has one, is not earlier than the deadline of any task of the
    project: the row then carries the payload's fields, [get_project]
    returns it, and the tasks and the other projects are untouched. *)
Theorem update_project_accepts :
  forall (db : DB) (project_id : Z) (project_update : ProjectUpdate.t)
         (db_project : Project.t),
    reachable db ->
    find (has_id_Project project_id) (projects db) = Some db_project ->
    ProjectUpdate.title project_update <> Some None ->
    ProjectUpdate.deadline project_update <> Some None ->
    (forall new_deadline task d,
        ProjectUpdate.deadline project_update = Some (Some new_deadline) ->
        In task (tasks db) ->
        Task.project_id task = Some project_id ->
        Task.deadline task = Some d ->
        d <= new_deadline) ->
    exists db',
      request (update_project project_id project_update) db
      = (Ok (ProjectUpdate_setattrs project_update db_project), db') /\
      request (get_project project_id) db'
      = (Ok (ProjectUpdate_setattrs project_update db_project), db') /\
      tasks db' = tasks db /\
      (forall i, i <> project_id ->
         find (has_id_Project i) (projects db') = find (has_id_Project i) (projects db)).
Proof.
  intros db project_id project_update db_project Hr Hf Htitle Hdl Hle.
  apply reachable_well_formed in Hr.
  pose proof (find_has_id_Project _ _ _ Hf) as [_ Hid].
  eexists. split; [now apply update_project_accepted|]. simpl. repeat split.
  - apply get_project_found. simpl.
    now apply find_replace_Project with (old := db_project).
  - intros i Hi. now apply find_replace_other_Project.
Qed.

Lemma update_project_accepts_witness :
  exists db',
    request (update_project 1 (ProjectUpdate.mk (Some (Some "Relaunch")) (Some (Some 8))))
            (run project_with_task)
    = (Ok (ProjectUpdate_setattrs
             (ProjectUpdate.mk (Some (Some "Relaunch")) (Some (Some 8)))
             (Project.mk 1 (Some "Launch") (Some 10))), db') /\
    request (get_project 1) db'
    = (Ok (ProjectUpdate_setattrs
             (ProjectUpdate.mk (Some (Some "Relaunch")) (Some (Some 8)))
             (Project.mk 1 (Some "Launch") (Some 10))), db') /\
    tasks db' = tasks (run project_with_task) /\
    (forall i, i <> 1 ->
       find (has_id_Project i) (projects db')
       = find (has_id_Project i) (projects (run project_with_task))).
Proof.
  apply (update_project_accepts (run project_with_task) 1
           (ProjectUpdate.mk (Some (Some "Relaunch")) (Some (Some 8)))
           (Project.mk 1 (Some "Launch") (Some 10))
           (reachable_run project_with_task) eq_refl);
    try discriminate.
  simpl. intros nd task d [= <-] [<-|[]] _ [= <-]. lia.
Defined.

(** X12.  Postponing is always allowed: on a reachable database an update
    that moves a project's deadline to its current value or later, and
    sets no title or a title other than null, is never rejected. *)
Theorem update_project_postpone :
  forall (db : DB) (project_id : Z) (project_update : ProjectUpdate.t)
         (db_project : Project.t) (old_deadline new_deadline : timestamp),
    reachable db ->
    find (has_id_Project project_id) (projects db) = Some db_project ->
    Project.deadline db_project = Some old_deadline ->
    ProjectUpdate.deadline project_update = Some (Some new_deadline) ->
    old_deadline <= new_deadline ->
    ProjectUpdate.title project_update <> Some None ->
    exists db',
      request (update_project project_id project_update) db
      = (Ok (ProjectUpdate_setattrs project_update db_project), db') /\
      Project.deadline (ProjectUpdate_setattrs project_update db_project)
      = Some new_deadline.
Proof.
  intros db project_id project_update db_project old nd Hr Hf Hold Hu Hle Htitle.
  apply reachable_well_formed in Hr.
  pose proof (find_has_id_Project _ _ _ Hf) as [Hin Hid].
  eexists. split.
  - apply update_project_accepted; auto; [congruence|].
    intros nd' task d Hu' Htin Hpid Hd. rewrite Hu in Hu'. injection Hu' as <-.
    rewrite <- Hid in Hpid.
    destruct (wf_deadlines db Hr task db_project d Htin Hin Hpid Hd) as (pd & Hpd & Hdle).
    rewrite Hold in Hpd. injection Hpd as <-. lia.
  - simpl. now rewrite Hu.
Qed.

Lemma update_project_postpone_witness :
  exists db',
    request (update_project 1 (ProjectUpdate.mk None (Some (Some 12))))
            (run project_with_task)
    = (Ok (ProjectUpdate_setattrs (ProjectUpdate.mk None (Some (Some 12)))
             (Project.mk 1 (Some "Launch") (Some 10))), db') /\
    Project.deadline (ProjectUpdate_setattrs (ProjectUpdate.mk None (Some (Some 12)))
                        (Project.mk 1 (Some "Launch") (Some 10)))
    = Some 12.
Proof.
  apply (update_project_postpone (run project_with_task) 1
           (ProjectUpdate.mk None (Some (Some 12)))
           (Project.mk 1 (Some "Launch") (Some 10)) 10 12
           (reachable_run project_with_task) eq_refl eq_refl eq_refl);
    [lia | discriminate].
Defined.

(** ** Updates that change nothing *)

Lemma NoDup_map_eq {A B : Type} (f : A -> B) (l : list A) (x y : A) :
  NoDup (map f l) -> In x l -> In y l -> f x = f y -> x = y.
Proof.
  induction l as [|a l IH]; simpl; [contradiction|].
  intros Hnd Hx Hy Hxy. inversion Hnd as [|? ? Ha Hnd']; subst.
  destruct Hx as [->|Hx], Hy as [->|Hy]; auto.
  - exfalso. apply Ha. rewrite Hxy. now apply in_map.
  - exfalso. apply Ha. rewrite <- Hxy. now apply in_map.
Qed.

Lemma map_replace_same {A : Type} (test : A -> bool) (row : A) (l : list A) :
  (forall x, In x l -> test x = true -> x = row) ->
  map (fun x => if test x then row else x) l = l.
Proof.
  intros H. rewrite <- (map_id l) at 2. apply map_ext_in. intros x Hin.
  destruct (test x) eqn:E; [symmetry; auto | reflexivity].
Qed.

Lemma TaskUpdate_setattrs_empty (db_task : Task.t) :
  TaskUpdate_setattrs empty_TaskUpdate db_task = db_task.
Proof. now destruct db_task. Qed.

Lemma ProjectUpdate_setattrs_empty (db_project : Project.t) :
  ProjectUpdate_setattrs empty_ProjectUpdate db_project = db_project.
Proof. now destruct db_project. Qed.

(** X13.  The empty payload changes nothing: on a reachable database,
    [update_task] and [update_project] with a payload that sets no field
    answer with the stored row and leave the database as it was. *)
Theorem empty_update_is_identity :
  forall db : DB,
    reachable db ->
    (forall task_id db_task,
        find (has_id_Task task_id) (tasks db) = Some db_task ->
        request (update_task task_id empty_TaskUpdate) db = (Ok db_task, db)) /\
    (forall project_id db_project,
        find (has_id_Project project_id) (projects db) = Some db_project ->
        request (update_project project_id empty_ProjectUpdate) db
        = (Ok db_project, db)).
Proof.
  intros db Hr. pose proof (reachable_unique_task_ids db Hr) as Hu.
  apply reachable_well_formed in Hr. split.
  - intros task_id db_task Hf.
    pose proof (find_has_id_Task _ _ _ Hf) as [Hin Hid].
    unfold update_task. rewrite request_db_get_Task, Hf.
    assert (Hrun : when_truthy (new_task_project_id empty_TaskUpdate db_task)
              (fun project_id =>
                 project <- db_get_Project project_id ;;
                 match project with
                 | None => raise Project_not_found
                 | Some project =>
                     lift (check_deadline_consistency
                             (new_task_deadline empty_TaskUpdate db_task)
                             (Project.deadline project) None)
                 end) (open_session db) = (Ok tt, open_session db)).
    { unfold new_task_project_id, new_task_deadline. simpl.
      destruct (Task.project_id db_task) as [i|] eqn:Hpid; [|reflexivity].
      unfold when_truthy. destruct (Z.eqb_spec i 0) as [|Hnz]; [reflexivity|].
      destruct (wf_refs db Hr db_task i Hin Hpid) as [Hz|Hex]; [contradiction|].
      apply in_map_iff in Hex. destruct Hex as (p & <- & Hpin).
      unfold bind, db_get_Project, lift. simpl.
      rewrite (find_unique_Project _ _ (wf_project_unique db Hr) Hpin).
      replace (check_deadline_consistency (Task.deadline db_task)
                 (Project.deadline p) None) with (Ok tt); [reflexivity|].
      symmetry. apply check_passes_iff. intros a b Ha Hb.
      destruct (wf_deadlines db Hr db_task p a Hin Hpin Hpid Ha) as (pd & Hpd & Hle).
      congruence. }
    rewrite (request_bind_unchanged _ _ db _ Hrun).
    rewrite <- Hid in Hf. rewrite TaskUpdate_setattrs_empty.
    unfold request. rewrite (request_set_Task db db_task db_task Hf eq_refl).
    assert (Hsame : {| projects := projects db;
                       tasks := map (fun t => if has_id_Task (Task.id db_task) t
                                              then db_task else t) (tasks db) |} = db).
    { rewrite map_replace_same; [now destruct db|].
      intros x Hx Hidx. unfold has_id_Task in Hidx. apply Z.eqb_eq in Hidx.
      now apply (NoDup_map_eq Task.id (tasks db)). }
    rewrite Hsame, (wf_not_null db Hr). reflexivity.
  - intros project_id db_project Hf.
    pose proof (find_has_id_Project _ _ _ Hf) as [Hin Hid].
    rewrite (update_project_accepted db project_id empty_ProjectUpdate db_project);
      auto; try discriminate.
    rewrite ProjectUpdate_setattrs_empty. f_equal.
    rewrite map_replace_same; [now destruct db|].
    intros x Hx Hidx. unfold has_id_Project in Hidx. apply Z.eqb_eq in Hidx.
    apply (NoDup_map_eq Project.id (projects db)); auto.
    + apply (wf_project_unique db Hr).
    + congruence.
Qed.

Lemma empty_update_is_identity_witness :
  request (update_task 1 empty_TaskUpdate) (run project_with_task)
  = (Ok (Task.mk 1 (Some "Draft") None (Some 8) (Some false) (Some 1)),
     run project_with_task).
Proof.
  apply (proj1 (empty_update_is_identity (run project_with_task)
                  (reachable_run project_with_task))).
  reflexivity.
Defined.

(** ** Missing rows *)





(** ** Linking *)

Lemma map_replace_idem {A : Type} (test : A -> bool) (row : A) (l : list A) :
  test row = true ->
  map (fun x => if test x then row else x) (map (fun x => if test x then row else x) l)
  = map (fun x => if test x then row else x) l.
Proof.
  intros Hrow. rewrite map_map. apply map_ext. intros x.
  destruct (test x) eqn:E; [now rewrite Hrow | now rewrite E].
Qed.

(** [link_task_to_project] when the checker passes. *)
Lemma link_task_to_project_accepted (db : DB) (task_id project_id : Z)
  (db_task : Task.t) (db_project : Project.t) :
  find (has_id_Task task_id) (tasks db) = Some db_task ->
  find (has_id_Project project_id) (projects db) = Some db_project ->
  check_deadline_consistency (Task.deadline db_task)
                             (Project.deadline db_project) None = Ok tt ->
  constraints db = true ->
  request (link_task_to_project task_id project_id) db
  = (Ok (set_project_id db_task project_id),
     {| projects := projects db;
        tasks := map (fun t => if has_id_Task task_id t
                               then set_project_id db_task project_id else t)
                     (tasks db) |}).
Proof.
  intros Hf Hfp Hc Hn. pose proof (find_has_id_Task _ _ _ Hf) as [Hin Hid].
  unfold link_task_to_project.
  rewrite request_db_get_Task, Hf, request_db_get_Project, Hfp, request_lift, Hc.
  unfold request. rewrite <- Hid in Hf.
  rewrite (request_set_Task db db_task (set_project_id db_task project_id) Hf eq_refl).
  rewrite Hid.
  match goal with |- context [constraints ?d] =>
    assert (Hn' : constraints d = true) end.
  { apply constraints_iff in Hn. destruct Hn as [Hn1 Hn2].
    apply constraints_iff. simpl. split; [exact Hn1|].
    intros t Ht. apply In_replace in Ht. destruct Ht as [->|[Ht _]]; auto.
    exact (Hn2 db_task Hin). }
  now rewrite Hn'.
Qed.

(** X16.  On a reachable database, linking a stored task to a stored
    project succeeds whenever the task has no deadline or is due no later
    than the project.  The task then reads with the project's id and is
    otherwise as it was, [get_project_tasks] without paging lists it, the
    projects are untouched, and linking it again changes nothing. *)
Theorem link_task_to_project_accepts :
  forall (db : DB) (task_id project_id : Z) (db_task : Task.t) (db_project : Project.t),
    reachable db ->
    find (has_id_Task task_id) (tasks db) = Some db_task ->
    find (has_id_Project project_id) (projects db) = Some db_project ->
    (forall d pd,
        Task.deadline db_task = Some d -> Project.deadline db_project = Some pd ->
        d <= pd) ->
    exists db',
      request (link_task_to_project task_id project_id) db
      = (Ok (set_project_id db_task project_id), db') /\
      request (get_task task_id) db' = (Ok (set_project_id db_task project_id), db') /\
      (exists ts,
          request (get_project_tasks project_id 0 (-1)) db' = (Ok ts, db') /\
          In (set_project_id db_task project_id) ts) /\
      projects db' = projects db /\
      request (link_task_to_project task_id project_id) db'
      = (Ok (set_project_id db_task project_id), db').
Proof.
  intros db task_id project_id db_task db_project Hr Hf Hfp Hle.
  apply reachable_well_formed in Hr.
  pose proof (find_has_id_Task _ _ _ Hf) as [_ Hid].
  pose proof (proj2 (check_passes_iff _ _ None) Hle) as Hc.
  set (row := set_project_id db_task project_id).
  set (db' := {| projects := projects db;
                 tasks := map (fun t => if has_id_Task task_id t then row else t)
                              (tasks db) |}).
  exists db'.
  pose proof (link_task_to_project_accepted db task_id project_id db_task db_project
                Hf Hfp Hc (wf_not_null db Hr)) as Hreq.
  fold row in Hreq. fold db' in Hreq.
  assert (Hf' : find (has_id_Task task_id) (tasks db') = Some row).
  { unfold db'. simpl. apply find_replace_Task with (old := db_task); auto. }
  assert (Hwf' : well_formed db').
  { replace db' with (snd (request (link_task_to_project task_id project_id) db))
      by now rewrite Hreq.
    now apply link_task_to_project_well_formed. }
  split; [exact Hreq|]. split; [now apply get_task_found|]. split; [|split].
  - exists (filter (owned_by project_id) (tasks db')). split.
    + rewrite (get_project_tasks_found db' project_id 0 (-1) db_project Hfp).
      rewrite offset_limit_all; [reflexivity | lia | left; lia].
    + apply filter_In. split.
      * now apply (find_has_id_Task _ _ _ Hf').
      * apply owned_by_iff. reflexivity.
  - reflexivity.
  - rewrite (link_task_to_project_accepted db' task_id project_id row db_project
               Hf' Hfp Hc (wf_not_null db' Hwf')).
    replace (set_project_id row project_id) with row by reflexivity.
    unfold db' at 2. simpl. rewrite map_replace_idem; [reflexivity|].
    unfold has_id_Task, row. simpl. now apply Z.eqb_eq.
Qed.

Lemma link_task_to_project_accepts_witness :
  exists db',
    request (link_task_to_project 1 1) (run zero_then_project)
    = (Ok (set_project_id (Task.mk 1 (Some "Stray") None None (Some false) (Some 0)) 1),
       db').
Proof.
  destruct (link_task_to_project_accepts (run zero_then_project) 1 1
              (Task.mk 1 (Some "Stray") None None (Some false) (Some 0))
              (Project.mk 1 (Some "Launch") (Some 10))
              (reachable_run zero_then_project) eq_refl eq_refl)
    as (db' & Hreq & _).
  - discriminate.
  - exists db'. exact Hreq.
Defined.


(** ** Failures *)

Lemma check_raise_cases (td pd : option timestamp) (ctx : option Z) (e : exception) :
  check_deadline_consistency td pd ctx = Raise e ->
  e = HTTPException 400 generic_message \/
  exists i, ctx = Some i /\ i <> 0 /\ e = HTTPException 400 (contextual_message i).
Proof.
  unfold check_deadline_consistency. destruct td, pd; try discriminate.
  destruct (_ >? _); [|discriminate].
  destruct ctx as [i|]; [|intros [= <-]; now left].
  destruct (Z.eqb_spec i 0); intros [= <-]; [now left | right; eauto].
Qed.

(** What the validation of [create_task] and [update_task] raises. *)
Lemma project_validation_raises (project_id : option Z) (deadline : option timestamp)
  (s s' : Session) (e : exception) :
  when_truthy project_id (fun project_id =>
    project <- db_get_Project project_id ;;
    match project with
    | None => raise Project_not_found
    | Some project =>
        lift (check_deadline_consistency deadline (Project.deadline project) None)
    end) s = (Raise e, s') ->
  e = Project_not_found \/ e = HTTPException 400 generic_message.
Proof.
  run_handler. destruct project_id as [i|]; [|discriminate].
  destruct (i =? 0); [discriminate|].
  destruct (find (has_id_Project i) (projects (working s))) as [project|];
    [|intros [= <- _]; now left].
  destruct (check_deadline_consistency deadline (Project.deadline project) None)
    as [[]|e'] eqn:Hc; [discriminate|].
  intros [= <- _]. right.
  destruct (check_raise_cases _ _ _ _ Hc) as [->|(i' & Hi & _)];
    [reflexivity | discriminate].
Qed.

(** What the loop of [update_project] raises. *)
Lemma update_project_validation_raises (payload_deadline : option timestamp)
  (db_project : Project.t) (s s' : Session) (e : exception) :
  (if is_Some payload_deadline
   then owned <- Project_tasks db_project ;;
        for_each owned (fun task =>
          lift (check_deadline_consistency (Task.deadline task) payload_deadline
                                           (Some (Task.id task))))
   else ret tt) s = (Raise e, s') ->
  e = HTTPException 400 generic_message \/
  exists task,
    In task (tasks (working s)) /\
    Task.project_id task = Some (Project.id db_project) /\
    e = HTTPException 400 (contextual_message (Task.id task)).
Proof.
  destruct payload_deadline as [nd|]; simpl; [|discriminate].
  unfold bind at 1, Project_tasks. simpl.
  fold (check_owned_tasks (Some nd)
          (filter (owned_by (Project.id db_project)) (tasks (working s)))).
  destruct (check_owned_tasks_cases (Some nd)
              (filter (owned_by (Project.id db_project)) (tasks (working s))) s)
    as [[Hok _]|(before & task & after & e' & Hsplit & _ & Hc & Hrun)];
    [rewrite Hok; discriminate|].
  rewrite Hrun. intros [= <- _].
  destruct (check_raise_cases _ _ _ _ Hc) as [->|(i & [= <-] & _ & ->)];
    [now left | right].
  assert (Hin : In task (filter (owned_by (Project.id db_project)) (tasks (working s)))).
  { rewrite Hsplit. apply in_or_app. right. now left. }
  apply filter_In in Hin. destruct Hin as [Hin Hown].
  exists task. repeat split; auto. now apply owned_by_iff.
Qed.



Lemma constraints_replace_Task (db : DB) (i : Z) (row : Task.t) :
  constraints db = true -> not_null_Task row = true ->
  constraints {| projects := projects db;
                 tasks := map (fun t => if has_id_Task i t then row else t) (tasks db) |}
  = true.
Proof.
  intros Hn Hrow. apply constraints_iff in Hn. destruct Hn as [Hn1 Hn2].
  apply constraints_iff. simpl. split; [exact Hn1|].
  intros t Ht. apply In_replace in Ht. destruct Ht as [->|[Ht _]]; auto.
Qed.

Lemma constraints_replace_Project (db : DB) (i : Z) (row : Project.t) :
  constraints db = true -> not_null_Project row = true ->
  constraints {| projects := map (fun p => if has_id_Project i p then row else p)
                                 (projects db);
                 tasks := tasks db |}
  = true.
Proof.
  intros Hn Hrow. apply constraints_iff in Hn. destruct Hn as [Hn1 Hn2].
  apply constraints_iff. simpl. split; [|exact Hn2].
  intros p Hp. apply In_replace in Hp. destruct Hp as [->|[Hp _]]; auto.
Qed.

Lemma constraints_delete_Project (db : DB) (project_id : Z) :
  constraints db = true ->
  constraints
    {| projects := filter (fun p => negb (has_id_Project project_id p)) (projects db);
       tasks := map (fun t => if owned_by project_id t then unlink t else t) (tasks db) |}
  = true.
Proof.
  intros Hn. apply constraints_iff in Hn. destruct Hn as [Hn1 Hn2].
  apply constraints_iff. simpl. split.
  - intros p Hin. apply filter_In in Hin. apply Hn1, Hin.
  - intros t' Hin. apply in_map_iff in Hin. destruct Hin as (t & <- & Hin).
    rewrite <- (Hn2 t Hin). now destruct (owned_by project_id t).
Qed.

Lemma constraints_delete_Task (db : DB) (task_id : Z) :
  constraints db = true ->
  constraints {| projects := projects db;
                 tasks := filter (fun t => negb (has_id_Task task_id t)) (tasks db) |}
  = true.
Proof.
  intros Hn. apply constraints_iff in Hn. destruct Hn as [Hn1 Hn2].
  apply constraints_iff. simpl. split; [exact Hn1|].
  intros t Hin. apply filter_In in Hin. apply Hn2, Hin.
Qed.

Lemma constraints_add_Task (db : DB) (row : Task.t) :
  constraints db = true -> not_null_Task row = true ->
  constraints {| projects := projects db; tasks := tasks db ++ [row] |} = true.
Proof.
  intros Hn Hrow. apply constraints_iff in Hn. destruct Hn as [Hn1 Hn2].
  apply constraints_iff. simpl. split; [exact Hn1|].
  intros t Hin. apply in_app_or in Hin. destruct Hin as [Hin|[<-|[]]]; auto.
Qed.

(** X18.  On a reachable database the integrity error has one cause: an
    update whose payload sets a NOT NULL column to null, [title] or
    [deadline] of a project, [title] or [completed] of a task.  Creating,
    deleting and linking never raise it. *)
Theorem integrity_error_only_from_null :
  forall (db : DB) (r : Request),
    reachable db ->
    failure db r = Some IntegrityError ->
    match r with
    | PUT_projects _ project_update =>
        ProjectUpdate.title project_update = Some None \/
        ProjectUpdate.deadline project_update = Some None
    | PUT_tasks _ task_update =>
        TaskUpdate.title task_update = Some None \/
        TaskUpdate.completed task_update = Some None
    | _ => False
    end.
Proof.
  intros db r Hr. apply reachable_well_formed in Hr.
  pose proof (wf_not_null db Hr) as Hn.
  pose proof (proj1 (constraints_iff db) Hn) as [Hn1 Hn2].
  destruct r; simpl.
  - now rewrite (create_project_request db project Hn).
  - unfold update_project. rewrite request_db_get_Project.
    destruct (find (has_id_Project project_id) (projects db)) as [db_project|] eqn:Hf;
      [|discriminate].
    pose proof (find_has_id_Project _ _ _ Hf) as [Hin Hid].
    destruct (update_project_validation_cases
                (attr (ProjectUpdate.deadline project_update)) db_project
                (open_session db))
      as [[Hrun _]|[e' Hrun]];
      rewrite (request_bind_unchanged _ _ db _ Hrun); simpl.
    + rewrite <- Hid in Hf.
      rewrite (request_set_Project db db_project
                 (ProjectUpdate_setattrs project_update db_project) Hf eq_refl).
      destruct (not_null_Project (ProjectUpdate_setattrs project_update db_project))
        eqn:Hrow.
      * now rewrite (constraints_replace_Project db _ _ Hn Hrow).
      * intros _. specialize (Hn1 db_project Hin).
        unfold not_null_Project in *. simpl in Hrow.
        apply andb_true_iff in Hn1. destruct Hn1 as [Ht Hd].
        destruct (ProjectUpdate.title project_update) as [[t|]|];
          destruct (ProjectUpdate.deadline project_update) as [[d|]|];
          simpl in Hrow; auto; rewrite ?Ht, ?Hd in Hrow; discriminate.
    + intros [= ->].
      destruct (update_project_validation_raises _ _ _ _ _ Hrun)
        as [H|(task & _ & _ & H)]; discriminate.
  - unfold delete_project. rewrite request_db_get_Project.
    destruct (find (has_id_Project project_id) (projects db)) as [db_project|] eqn:Hf;
      [|discriminate].
    run_handler. now rewrite (constraints_delete_Project db _ Hn).
  - unfold create_task.
    destruct (project_validation_cases (TaskCreate.project_id task_create)
                (TaskCreate.deadline task_create) (open_session db))
      as [[Hrun _]|[e' Hrun]];
      rewrite (request_bind_unchanged _ _ db _ Hrun); simpl.
    + rewrite request_add_Task. now rewrite (constraints_add_Task db _ Hn).
    + intros [= ->].
      destruct (project_validation_raises _ _ _ _ _ Hrun); discriminate.
  - unfold update_task. rewrite request_db_get_Task.
    destruct (find (has_id_Task task_id) (tasks db)) as [db_task|] eqn:Hf;
      [|discriminate].
    pose proof (find_has_id_Task _ _ _ Hf) as [Hin Hid].
    destruct (project_validation_cases (new_task_project_id task_update db_task)
                (new_task_deadline task_update db_task) (open_session db))
      as [[Hrun _]|[e' Hrun]];
      rewrite (request_bind_unchanged _ _ db _ Hrun); simpl.
    + rewrite <- Hid in Hf. unfold request.
      rewrite (request_set_Task db db_task
                 (TaskUpdate_setattrs task_update db_task) Hf eq_refl).
      destruct (not_null_Task (TaskUpdate_setattrs task_update db_task)) eqn:Hrow.
      * now rewrite (constraints_replace_Task db _ _ Hn Hrow).
      * intros _. specialize (Hn2 db_task Hin).
        unfold not_null_Task in *. simpl in Hrow.
        apply andb_true_iff in Hn2. destruct Hn2 as [Ht Hc].
        destruct (TaskUpdate.title task_update) as [[t|]|];
          destruct (TaskUpdate.completed task_update) as [[c|]|];
          simpl in Hrow; auto; rewrite ?Ht, ?Hc in Hrow; discriminate.
    + intros [= ->].
      destruct (project_validation_raises _ _ _ _ _ Hrun); discriminate.
  - unfold delete_task. rewrite request_db_get_Task.
    destruct (find (has_id_Task task_id) (tasks db)) as [db_task|] eqn:Hf;
      [|discriminate].
    run_handler. now rewrite (constraints_delete_Task db _ Hn).
  - unfold link_task_to_project. rewrite request_db_get_Task.
    destruct (find (has_id_Task task_id) (tasks db)) as [db_task|] eqn:Hf;
      [|discriminate].
    rewrite request_db_get_Project.
    destruct (find (has_id_Project project_id) (projects db)) as [db_project|] eqn:Hfp;
      [|discriminate].
    pose proof (find_has_id_Task _ _ _ Hf) as [Hin Hid].
    rewrite request_lift.
    destruct (check_deadline_consistency (Task.deadline db_task)
                (Project.deadline db_project) None) as [[]|e'] eqn:Hc.
    + rewrite <- Hid in Hf. unfold request.
      rewrite (request_set_Task db db_task (set_project_id db_task project_id)
                 Hf eq_refl).
      assert (Hrow : not_null_Task (set_project_id db_task project_id) = true)
        by exact (Hn2 db_task Hin).
      now rewrite (constraints_replace_Task db _ _ Hn Hrow).
    + simpl. intros [= ->].
      destruct (check_raise_cases _ _ _ _ Hc) as [H|(i & _ & _ & H)]; discriminate.
Qed.

Lemma integrity_error_only_from_null_witness :
  TaskUpdate.title (TaskUpdate.mk (Some None) None None None None) = Some None \/
  TaskUpdate.completed (TaskUpdate.mk (Some None) None None None None) = Some None.
Proof.
  apply (integrity_error_only_from_null (run project_with_task)
           (PUT_tasks 1 (TaskUpdate.mk (Some None) None None None None))
           (reachable_run project_with_task)).
  reflexivity.
Defined.

(** ** Deadlines across time zones *)

(** X19.  Offsets do not matter to the checker: on the deadlines two
    payloads carry after validation, it rejects exactly when the task's
    instant is strictly later than the project's, whatever offsets the
    two values were written with; a payload without deadline never
    conflicts. *)
Theorem check_on_validated_deadlines :
  forall (task_deadline project_deadline : datetime) (task_id : option Z),
    ((exists e,
         check_deadline_consistency (validated_deadline (Some task_deadline))
                                    (validated_deadline (Some project_deadline)) task_id
         = Raise e)
     <-> instant task_deadline > instant project_deadline) /\
    check_deadline_consistency (validated_deadline None)
                               (validated_deadline (Some project_deadline)) task_id
    = Ok tt.
Proof.
  intros a b ctx. split; [|reflexivity].
  rewrite !validated_deadline_instant. unfold check_deadline_consistency.
  destruct (Z.gtb_spec (instant a) (instant b)) as [Hgt|Hle].
  - split; [intros _; lia | intros _; eauto].
  - split; [intros [e H]; discriminate | intros H; lia].
Qed.

(** ** Which task a rejected project update names *)




(** ** The wording of a rejection identifies the task *)

Lemma length_append (s1 s2 : string) :
  String.length (s1 ++ s2)%string = (String.length s1 + String.length s2)%nat.
Proof. induction s1 as [|c s1 IH]; simpl; [reflexivity | now rewrite IH]. Qed.

Lemma append_cancel_r (s1 s2 t : string) :
  (s1 ++ t)%string = (s2 ++ t)%string -> s1 = s2.
Proof.
  revert s2. induction s1 as [|c s1 IH]; intros [|c' s2] H; simpl in H.
  - reflexivity.
  - apply (f_equal String.length) in H. simpl in H. rewrite length_append in H. lia.
  - apply (f_equal String.length) in H. simpl in H. rewrite length_append in H. lia.
  - injection H as -> H. f_equal. now apply IH.
Qed.

Lemma str_inj (i j : Z) : str i = str j -> i = j.
Proof.
  unfold str. intros H. apply DecimalZ.to_int_inj.
  assert (Hnn : forall n, Z.to_int n <> Decimal.Pos Decimal.Nil /\
                          Z.to_int n <> Decimal.Neg Decimal.Nil).
  { intros [|p|p]; simpl; split; try discriminate;
      intros [= E]; now apply DecimalPos.Unsigned.to_uint_nonnil in E. }
  destruct (Hnn i) as [Hi1 Hi2], (Hnn j) as [Hj1 Hj2].
  pose proof (NilZero.isi (Z.to_int i) Hi1 Hi2) as Ei.
  pose proof (NilZero.isi (Z.to_int j) Hj1 Hj2) as Ej.
  rewrite H in Ei. congruence.
Qed.

(** X21.  The wording of a contextual rejection identifies the task:
    two task ids with the same message are the same id, and no id gives
    the generic message. *)
Theorem contextual_message_identifies_task :
  forall i j : Z,
    (contextual_message i = contextual_message j -> i = j) /\
    contextual_message i <> generic_message.
Proof.
  intros i j. split; [|apply contextual_is_not_generic].
  unfold contextual_message. simpl. intros [= H].
  apply append_cancel_r in H. now apply str_inj.
Qed.

(** ** Task updates that are accepted *)

(** An [update_task] whose payload sets no NOT NULL column to null and
    whose merged values pass the validation is written. *)
Lemma update_task_accepted (db : DB) (task_id : Z) (task_update : TaskUpdate.t)
  (db_task : Task.t) :
  constraints db = true ->
  find (has_id_Task task_id) (tasks db) = Some db_task ->
  TaskUpdate.title task_update <> Some None ->
  TaskUpdate.completed task_update <> Some None ->
  (forall i,
      new_task_project_id task_update db_task = Some i -> i <> 0 ->
      exists project,
        find (has_id_Project i) (projects db) = Some project /\
        check_deadline_consistency (new_task_deadline task_update db_task)
                                   (Project.deadline project) None = Ok tt) ->
  request (update_task task_id task_update) db
  = (Ok (TaskUpdate_setattrs task_update db_task),
     {| projects := projects db;
        tasks := map (fun t => if has_id_Task task_id t
                               then TaskUpdate_setattrs task_update db_task else t)
                     (tasks db) |}).
Proof.
  intros Hn Hf Htitle Hcompleted Hval.
  pose proof (find_has_id_Task _ _ _ Hf) as [Hin Hid].
  unfold update_task. rewrite request_db_get_Task, Hf.
  assert (Hrun : when_truthy (new_task_project_id task_update db_task)
            (fun project_id =>
               project <- db_get_Project project_id ;;
               match project with
               | None => raise Project_not_found
               | Some project =>
                   lift (check_deadline_consistency
                           (new_task_deadline task_update db_task)
                           (Project.deadline project) None)
               end) (open_session db) = (Ok tt, open_session db)).
  { destruct (new_task_project_id task_update db_task) as [i|]; [|reflexivity].
    unfold when_truthy. destruct (Z.eqb_spec i 0) as [|Hnz]; [reflexivity|].
    destruct (Hval i eq_refl Hnz) as (project & Hfp & Hc).
    unfold bind, db_get_Project, lift. simpl. now rewrite Hfp, Hc. }
  rewrite (request_bind_unchanged _ _ db _ Hrun).
  rewrite <- Hid in Hf. unfold request.
  rewrite (request_set_Task db db_task (TaskUpdate_setattrs task_update db_task)
             Hf eq_refl).
  rewrite Hid.
  assert (Hrow : not_null_Task (TaskUpdate_setattrs task_update db_task) = true).
  { pose proof (proj2 (proj1 (constraints_iff db) Hn) db_task Hin) as Hnn.
    unfold not_null_Task in *. simpl.
    apply andb_true_iff in Hnn. destruct Hnn as [Ht Hc].
    destruct (TaskUpdate.title task_update) as [[t|]|];
      destruct (TaskUpdate.completed task_update) as [[c|]|];
      simpl; try congruence; rewrite ?Ht, ?Hc; reflexivity. }
  now rewrite (constraints_replace_Task db _ _ Hn Hrow).
Qed.

(** X22.  On a reachable database, [update_task] on a stored task
    succeeds whenever the payload sets neither [title] nor [completed] to
    null and the merged project, if its id is other than null and 0,
    exists with a deadline the merged deadline does not pass.  The task
    then carries every field of the payload, [get_task] returns it, and
    the projects and the other tasks are untouched. *)
Theorem update_task_accepts :
  forall (db : DB) (task_id : Z) (task_update : TaskUpdate.t) (db_task : Task.t),
    reachable db ->
    find (has_id_Task task_id) (tasks db) = Some db_task ->
    TaskUpdate.title task_update <> Some None ->
    TaskUpdate.completed task_update <> Some None ->
    (forall i,
        new_task_project_id task_update db_task = Some i -> i <> 0 ->
        exists project,
          find (has_id_Project i) (projects db) = Some project /\
          forall d pd,
            new_task_deadline task_update db_task = Some d ->
            Project.deadline project = Some pd -> d <= pd) ->
    exists db',
      request (update_task task_id task_update) db
      = (Ok (TaskUpdate_setattrs task_update db_task), db') /\
      request (get_task task_id) db'
      = (Ok (TaskUpdate_setattrs task_update db_task), db') /\
      projects db' = projects db /\
      (forall i, i <> task_id ->
         find (has_id_Task i) (tasks db') = find (has_id_Task i) (tasks db)).
Proof.
  intros db task_id task_update db_task Hr Hf Htitle Hcompleted Hval.
  apply reachable_well_formed in Hr.
  pose proof (find_has_id_Task _ _ _ Hf) as [_ Hid].
  eexists. split.
  - apply update_task_accepted; auto; [apply (wf_not_null db Hr)|].
    intros i Hi Hnz. destruct (Hval i Hi Hnz) as (project & Hfp & Hle).
    exists project. split; [exact Hfp|]. now apply check_passes_iff.
  - simpl. repeat split.
    + apply get_task_found. simpl.
      now apply find_replace_Task with (old := db_task).
    + intros i Hi. now apply find_replace_other_Task.
Qed.

Lemma update_task_accepts_witness :
  exists db',
    request (update_task 1 (TaskUpdate.mk None None (Some (Some 10)) None None))
            (run project_with_task)
    = (Ok (TaskUpdate_setattrs (TaskUpdate.mk None None (Some (Some 10)) None None)
             (Task.mk 1 (Some "Draft") None (Some 8) (Some false) (Some 1))), db') /\
    request (get_task 1) db'
    = (Ok (TaskUpdate_setattrs (TaskUpdate.mk None None (Some (Some 10)) None None)
             (Task.mk 1 (Some "Draft") None (Some 8) (Some false) (Some 1))), db') /\
    projects db' = projects (run project_with_task) /\
    (forall i, i <> 1 ->
       find (has_id_Task i) (tasks db')
       = find (has_id_Task i) (tasks (run project_with_task))).
Proof.
  apply (update_task_accepts (run project_with_task) 1
           (TaskUpdate.mk None None (Some (Some 10)) None None)
           (Task.mk 1 (Some "Draft") None (Some 8) (Some false) (Some 1))
           (reachable_run project_with_task) eq_refl);
    try discriminate.
  simpl. intros i [= <-] _. exists (Project.mk 1 (Some "Launch") (Some 10)).
  split; [reflexivity|]. intros d pd [= <-] [= <-]. lia.
Defined.

(** X23.  Title, description and completion are free: on a reachable
    database an update of a stored task that leaves [deadline] and
    [project_id] out, and sets neither [title] nor [completed] to null,
    always succeeds and keeps the task's deadline and project. *)
Theorem update_task_free_fields :
  forall (db : DB) (task_id : Z) (task_update : TaskUpdate.t) (db_task : Task.t),
    reachable db ->
    find (has_id_Task task_id) (tasks db) = Some db_task ->
    TaskUpdate.deadline task_update = None ->
    TaskUpdate.project_id task_update = None ->
    TaskUpdate.title task_update <> Some None ->
    TaskUpdate.completed task_update <> Some None ->
    exists row db',
      request (update_task task_id task_update) db = (Ok row, db') /\
      Task.deadline row = Task.deadline db_task /\
      Task.project_id row = Task.project_id db_task /\
      Task.completed row
      = setattr_unset (TaskUpdate.completed task_update) (Task.completed db_task).
Proof.
  intros db task_id task_update db_task Hr Hf Hdl Hpid Htitle Hcompleted.
  apply reachable_well_formed in Hr.
  pose proof (find_has_id_Task _ _ _ Hf) as [Hin Hid].
  assert (Hval : forall i,
    new_task_project_id task_update db_task = Some i -> i <> 0 ->
    exists project,
      find (has_id_Project i) (projects db) = Some project /\
      check_deadline_consistency (new_task_deadline task_update db_task)
                                 (Project.deadline project) None = Ok tt).
  { unfold new_task_project_id, new_task_deadline. rewrite Hdl, Hpid. simpl.
    intros i Hi Hnz.
    destruct (wf_refs db Hr db_task i Hin Hi) as [Hz|Hex]; [contradiction|].
    apply in_map_iff in Hex. destruct Hex as (p & <- & Hpin).
    exists p. split.
    { apply find_unique_Project; [apply (wf_project_unique db Hr) | exact Hpin]. }
    apply check_passes_iff. intros a b Ha Hb.
    destruct (wf_deadlines db Hr db_task p a Hin Hpin Hi Ha) as (pd & Hpd & Hle).
    congruence. }
  eexists. eexists. split.
  - exact (update_task_accepted db task_id task_update db_task
             (wf_not_null db Hr) Hf Htitle Hcompleted Hval).
  - simpl. rewrite Hdl, Hpid. auto.
Qed.

Lemma update_task_free_fields_witness :
  exists row db',
    request (update_task 1 (TaskUpdate.mk None None None (Some (Some true)) None))
            (run project_with_task)
    = (Ok row, db') /\
    Task.deadline row = Some 8 /\
    Task.project_id row = Some 1 /\
    Task.completed row = Some true.
Proof.
  apply (update_task_free_fields (run project_with_task) 1
           (TaskUpdate.mk None None None (Some (Some true)) None)
           (Task.mk 1 (Some "Draft") None (Some 8) (Some false) (Some 1))
           (reachable_run project_with_task) eq_refl eq_refl eq_refl);
    discriminate.
Defined.

(** X24.  Moving a task earlier is always allowed: on a reachable
    database an update of a stored task that leaves [project_id] out and
    sets [deadline] to null, or to a value no later than the stored
    deadline, succeeds when it sets neither [title] nor [completed] to
    null, and stores the payload's deadline. *)
Theorem update_task_advance :
  forall (db : DB) (task_id : Z) (task_update : TaskUpdate.t) (db_task : Task.t),
    reachable db ->
    find (has_id_Task task_id) (tasks db) = Some db_task ->
    TaskUpdate.project_id task_update = None ->
    (TaskUpdate.deadline task_update = Some None \/
     exists new_deadline old_deadline,
       TaskUpdate.deadline task_update = Some (Some new_deadline) /\
       Task.deadline db_task = Some old_deadline /\
       new_deadline <= old_deadline) ->
    TaskUpdate.title task_update <> Some None ->
    TaskUpdate.completed task_update <> Some None ->
    exists row db',
      request (update_task task_id task_update) db = (Ok row, db') /\
      Some (Task.deadline row) = TaskUpdate.deadline task_update /\
      Task.project_id row = Task.project_id db_task.
Proof.
  intros db task_id task_update db_task Hr Hf Hpid Hdl Htitle Hcompleted.
  apply reachable_well_formed in Hr.
  pose proof (find_has_id_Task _ _ _ Hf) as [Hin Hid].
  assert (Hval : forall i,
    new_task_project_id task_update db_task = Some i -> i <> 0 ->
    exists project,
      find (has_id_Project i) (projects db) = Some project /\
      check_deadline_consistency (new_task_deadline task_update db_task)
                                 (Project.deadline project) None = Ok tt).
  { unfold new_task_project_id. rewrite Hpid. simpl. intros i Hi Hnz.
    destruct (wf_refs db Hr db_task i Hin Hi) as [Hz|Hex]; [contradiction|].
    apply in_map_iff in Hex. destruct Hex as (p & <- & Hpin).
    exists p. split.
    { apply find_unique_Project; [apply (wf_project_unique db Hr) | exact Hpin]. }
    apply check_passes_iff. intros a b Ha Hb. unfold new_task_deadline in Ha.
    destruct Hdl as [Hnull|(nd & od & Hnew & Hold & Hle)].
    - rewrite Hnull in Ha. simpl in Ha.
      destruct (wf_deadlines db Hr db_task p a Hin Hpin Hi Ha) as (pd & Hpd & Hle).
      congruence.
    - rewrite Hnew in Ha. simpl in Ha. injection Ha as <-.
      destruct (wf_deadlines db Hr db_task p od Hin Hpin Hi Hold) as (pd & Hpd & Hle').
      assert (b = pd) by congruence. lia. }
  eexists. eexists. split.
  - exact (update_task_accepted db task_id task_update db_task
             (wf_not_null db Hr) Hf Htitle Hcompleted Hval).
  - simpl. rewrite Hpid. split; [|reflexivity].
    destruct Hdl as [->|(nd & od & -> & _)]; reflexivity.
Qed.

Lemma update_task_advance_witness :
  exists row db',
    request (update_task 1 (TaskUpdate.mk None None (Some (Some 3)) None None))
            (run project_with_task)
    = (Ok row, db') /\
    Some (Task.deadline row) = Some (Some 3) /\
    Task.project_id row = Some 1.
Proof.
  apply (update_task_advance (run project_with_task) 1
           (TaskUpdate.mk None None (Some (Some 3)) None None)
           (Task.mk 1 (Some "Draft") None (Some 8) (Some false) (Some 1))
           (reachable_run project_with_task) eq_refl eq_refl);
    try discriminate.
  right. exists 3, 8. repeat split. lia.
Defined.

(** X25.  A task [create_task] accepts under a project id other than 0
    belongs to a stored project: [get_project] finds the project, the
    task is due no later than it, and [get_project_tasks] without paging
    lists the task last. *)
Theorem create_task_under_project :
  forall (db db' : DB) (task_create : TaskCreate.t) (row : Task.t) (i : Z),
    request (create_task task_create) db = (Ok row, db') ->
    TaskCreate.project_id task_create = Some i ->
    i <> 0 ->
    exists project,
      request (get_project i) db' = (Ok project, db') /\
      (forall d pd,
          Task.deadline row = Some d -> Project.deadline project = Some pd -> d <= pd) /\
      exists ts,
        request (get_project_tasks i 0 (-1)) db' = (Ok (ts ++ [row]), db') /\
        request (get_project_tasks i 0 (-1)) db = (Ok ts, db).
Proof.
  intros db db' task_create row i Hreq Hi Hnz.
  unfold create_task in Hreq.
  destruct (project_validation_cases (TaskCreate.project_id task_create)
              (TaskCreate.deadline task_create) (open_session db))
    as [[Hrun Hrow]|[e Hrun]];
    rewrite (request_bind_unchanged _ _ db _ Hrun) in Hreq; simpl in Hreq;
    [|discriminate].
  rewrite request_add_Task in Hreq.
  match type of Hreq with context [constraints ?d] => destruct (constraints d) end;
    [|discriminate].
  injection Hreq as <- <-.
  destruct (Hrow i Hi) as [Hz|(project & Hf & Hc)]; [contradiction|].
  simpl in Hf. exists project. split; [now apply get_project_found|]. split.
  - simpl. exact (proj1 (check_passes_iff _ _ _) Hc).
  - exists (filter (owned_by i) (tasks db)). split.
    + match goal with |- request _ ?d = _ =>
        rewrite (get_project_tasks_found d i 0 (-1) project Hf) end.
      simpl. rewrite offset_limit_all; [|lia|left; lia].
      rewrite filter_app. simpl.
      replace (owned_by i _) with true; [reflexivity|].
      symmetry. apply owned_by_iff. simpl. exact Hi.
    + rewrite (get_project_tasks_found _ i 0 (-1) project Hf).
      rewrite offset_limit_all; [reflexivity|lia|left; lia].
Qed.

Lemma create_task_under_project_witness :
  exists project,
    request (get_project 1)
      {| projects := [Project.mk 1 (Some "Launch") (Some 10)];
         tasks := [Task.mk 1 (Some "Draft") None (Some 8) (Some false) (Some 1);
                   Task.mk 2 (Some "Review") None (Some 9) (Some true) (Some 1)] |}
    = (Ok project,
       {| projects := [Project.mk 1 (Some "Launch") (Some 10)];
          tasks := [Task.mk 1 (Some "Draft") None (Some 8) (Some false) (Some 1);
                    Task.mk 2 (Some "Review") None (Some 9) (Some true) (Some 1)] |}) /\
    (forall d pd,
        Task.deadline (Task.mk 2 (Some "Review") None (Some 9) (Some true) (Some 1))
        = Some d ->
        Project.deadline project = Some pd -> d <= pd) /\
    exists ts,
      request (get_project_tasks 1 0 (-1))
        {| projects := [Project.mk 1 (Some "Launch") (Some 10)];
           tasks := [Task.mk 1 (Some "Draft") None (Some 8) (Some false) (Some 1);
                     Task.mk 2 (Some "Review") None (Some 9) (Some true) (Some 1)] |}
      = (Ok (ts ++ [Task.mk 2 (Some "Review") None (Some 9) (Some true) (Some 1)]),
         {| projects := [Project.mk 1 (Some "Launch") (Some 10)];
            tasks := [Task.mk 1 (Some "Draft") None (Some 8) (Some false) (Some 1);
                      Task.mk 2 (Some "Review") None (Some 9) (Some true) (Some 1)] |}) /\
      request (get_project_tasks 1 0 (-1)) (run project_with_task)
      = (Ok ts, run project_with_task).
Proof.
  apply (create_task_under_project (run project_with_task)
           {| projects := [Project.mk 1 (Some "Launch") (Some 10)];
              tasks := [Task.mk 1 (Some "Draft") None (Some 8) (Some false) (Some 1);
                        Task.mk 2 (Some "Review") None (Some 9) (Some true) (Some 1)] |}
           (TaskCreate.mk "Review" None (Some 9) true (Some 1))
           (Task.mk 2 (Some "Review") None (Some 9) (Some true) (Some 1))
           1 eq_refl eq_refl).
  lia.
Defined.
